(** * Process-memory flows of GRR: [flows/general/memory.py]

    A shallow embedding of the two flows [YaraProcessScan] and
    [DumpProcessMemory] and of the two module-level helpers
    [_CanonicalizeLegacyWindowsPathSpec] and
    [_MigrateLegacyDumpFilesToMemoryAreas], followed by the properties
    the design document states about them.

    Conventions.
    - A Python [str] is a [string]; one character stands for one code
      point, so the embedding covers code points below 256.
    - A Python [int] is a [Z].
    - A handler of a flow is a function that returns the effects it had on
      the flow (replies, calls, log lines), in order, together with the
      way it ended: normally or by raising. *)

From Stdlib Require Import ZArith Ascii String List Lia Bool.
From stdpp Require Import base option list strings gmap pretty sorting.

Local Open Scope string_scope.
Local Open Scope list_scope.

(** ** Python string built-ins used by the module *)

Module PyStr.

(** [c in s] for a one-character [c]. *)
Fixpoint contains (c : ascii) (s : string) : bool :=
  match s with
  | EmptyString => false
  | String a s' => if Ascii.eqb a c then true else contains c s'
  end.

(** [s.split(sep)] for a one-character separator: the fields between
    the occurrences of [sep]; never the empty list. *)
Fixpoint split (sep : ascii) (s : string) : list string :=
  match s with
  | EmptyString => [EmptyString]
  | String a s' =>
      if Ascii.eqb a sep then EmptyString :: split sep s'
      else match split sep s' with
           | f :: fs => String a f :: fs
           | [] => [String a EmptyString]
           end
  end.

(** [sep.join(fields)]. *)
Fixpoint join (sep : string) (fields : list string) : string :=
  match fields with
  | [] => EmptyString
  | [f] => f
  | f :: fs => f +:+ sep +:+ join sep fs
  end.

(** [s.rsplit(sep, maxsplit)]: only the [maxsplit] rightmost occurrences
    of [sep] separate fields; what is left of them stays one field. *)
Definition rsplit (sep : ascii) (maxsplit : nat) (s : string) : list string :=
  let fields := split sep s in
  let k := (List.length fields - maxsplit)%nat in
  match k with
  | O | S O => fields
  | _ => join (String sep EmptyString) (take k fields) :: drop k fields
  end.

(** [s[i:j]] for [0 <= i <= j]. *)
Definition slice (i j : nat) (s : string) : string :=
  String.substring i (j - i) s.

(** [posixpath.basename]: what follows the last ['/']. *)
Definition basename (p : string) : string :=
  List.last (split "/" p) EmptyString.

(** *** [int(s, 16)] *)

(** The white space [int] skips at both ends of an ASCII string. *)
Definition is_space (c : ascii) : bool :=
  let n := N_of_ascii c in
  ((9 <=? n) && (n <=? 13) || (n =? 32))%N.

Definition is_ascii (s : string) : bool :=
  forallb (fun c => (N_of_ascii c <? 128)%N) (list_ascii_of_string s).

(** A [str] with a character outside ASCII is first rewritten: the
    Unicode spaces (below 256 these are U+0085 and U+00A0) become a
    blank; no other character from 127 on is a digit of a base up to
    36 in this range, and it becomes ['?'], which ends the number. *)
Definition to_ascii_digits (s : string) : string :=
  if is_ascii s then s
  else
    string_of_list_ascii
      (List.map
         (fun c =>
            let n := N_of_ascii c in
            if (n <? 127)%N then c
            else if ((n =? 133) || (n =? 160))%N then " "%char
            else "?"%char)
         (list_ascii_of_string s)).

Definition digit_value (c : ascii) : option Z :=
  let n := Z.of_N (N_of_ascii c) in
  if ((48 <=? n) && (n <=? 57))%Z then Some (n - 48)%Z
  else if ((97 <=? n) && (n <=? 102))%Z then Some (n - 87)%Z
  else if ((65 <=? n) && (n <=? 70))%Z then Some (n - 55)%Z
  else None.

Fixpoint lstrip (s : string) : string :=
  match s with
  | String a s' => if is_space a then lstrip s' else s
  | EmptyString => EmptyString
  end.

(** The digits, with single underscores allowed between them. Returns
    the value read, the number of digits and what follows them. *)
Fixpoint scan_digits (prev_underscore : bool) (acc : Z) (n : nat) (s : string)
  : option (Z * nat * string) :=
  match s with
  | EmptyString => if prev_underscore then None else Some (acc, n, s)
  | String a s' =>
      if Ascii.eqb a "_" then
        if prev_underscore then None else scan_digits true acc n s'
      else
        match digit_value a with
        | Some d => scan_digits false (16 * acc + d)%Z (S n) s'
        | None => if prev_underscore then None else Some (acc, n, s)
        end
  end.

Definition skip_sign (s : string) : Z * string :=
  match s with
  | String "+" s' => (1%Z, s')
  | String "-" s' => ((-1)%Z, s')
  | _ => (1%Z, s)
  end.

Definition skip_prefix (s : string) : string :=
  match s with
  | String "0" (String x s') =>
      if Ascii.eqb x "x" || Ascii.eqb x "X" then
        match s' with
        | String "_" s'' => s''
        | _ => s'
        end
      else s
  | _ => s
  end.

(** [int(s, 16)]; [None] stands for the [ValueError] of an invalid
    literal. *)
Definition int16 (s : string) : option Z :=
  let '(sign, s1) := skip_sign (lstrip (to_ascii_digits s)) in
  let s2 := skip_prefix s1 in
  match s2 with
  | String "_" _ => None
  | _ =>
      match scan_digits false 0%Z 0%nat s2 with
      | Some (v, S _, rest) =>
          match lstrip rest with
          | EmptyString => Some (sign * v)%Z
          | _ => None
          end
      | _ => None
      end
  end.

End PyStr.

(** ** Path specifications *)

(** Modelled from the spec: [rdf_paths.PathSpec] is declared outside this
    module. A file locator is "an opaque path specification": the path
    string the module reads and writes, and a path type it only copies. *)
Record PathSpec := mkPathSpec {
  pathtype : Z;
  path : string
}.

Global Instance PathSpec_eq_dec : EqDecision PathSpec.
Proof. solve_decision. Defined.

(** Modelled from the spec: [PathSpec.Basename] is declared outside this
    module; the design speaks of "the filename" of a raw path. *)
Definition Basename (ps : PathSpec) : string := PyStr.basename (path ps).

(** The test of the [if] in [_CanonicalizeLegacyWindowsPathSpec]. *)
Definition looks_like_legacy_windows (p : string) : bool :=
  String.eqb (PyStr.slice 1 3 p) ":\" && negb (PyStr.contains "/" p).

Definition _CanonicalizeLegacyWindowsPathSpec (ps : PathSpec) : PathSpec :=
  let canonicalized := mkPathSpec (pathtype ps) (path ps) in
  if looks_like_legacy_windows (path ps) then
    mkPathSpec (pathtype canonicalized)
               ("/" +:+ PyStr.join "/" (PyStr.split "\" (path ps)))
  else canonicalized.

(** *** The same function on objects

    Python passes [ps] by reference. The objects live in a store; the
    constructor call [rdf_paths.PathSpec(ps)] allocates the copy, and the
    assignment to [canonicalized.path] writes to that copy. *)

Definition ref := nat.

Definition alloc (σ : gmap ref PathSpec) (v : PathSpec) : gmap ref PathSpec * ref :=
  let r := fresh (dom σ) in (<[r := v]> σ, r).

Definition set_path (σ : gmap ref PathSpec) (r : ref) (p : string) : gmap ref PathSpec :=
  alter (fun o => mkPathSpec (pathtype o) p) r σ.

Definition _CanonicalizeLegacyWindowsPathSpec_obj (σ : gmap ref PathSpec) (ps : ref)
  : option (gmap ref PathSpec * ref) :=
  o ← σ !! ps;
  let '(σ1, canonicalized) := alloc σ (mkPathSpec (pathtype o) (path o)) in
  if looks_like_legacy_windows (path o) then
    Some (set_path σ1 canonicalized
            ("/" +:+ PyStr.join "/" (PyStr.split "\" (path o))),
          canonicalized)
  else Some (σ1, canonicalized).

(** *** The words of the design, for comparison *)

Definition is_letter (c : ascii) : bool :=
  let n := N_of_ascii c in
  ((65 <=? n) && (n <=? 90) || (97 <=? n) && (n <=? 122))%N.

(** "a legacy absolute path of the form <single-letter>:\... with no
    forward-slash characters anywhere in the string" *)
Definition legacy_absolute_form (p : string) : Prop :=
  (∃ letter rest, is_letter letter = true ∧
                  p = String letter (String ":" (String "\" rest))) ∧
  PyStr.contains "/" p = false.

(** "each backslash replaced with /" *)
Fixpoint replace_char (a b : ascii) (s : string) : string :=
  match s with
  | EmptyString => EmptyString
  | String c s' => String (if Ascii.eqb c a then b else c) (replace_char a b s')
  end.

(** ** Records of [rdf_client], [rdf_client_fs] and [rdf_memory]

    Modelled from the spec: the classes are declared outside this module;
    each record has the fields the module reads or writes. *)

Module Process.
Record t := mk { pid : Z; name : string; exe : string }.
End Process.

Module ProcessMemoryRegion.
Record t := mk { file : PathSpec; start : Z; size : Z }.
End ProcessMemoryRegion.

Module ProcessMemoryError.
Record t := mk { process : Process.t; error : string }.
End ProcessMemoryError.

Module YaraProcessDumpInformation.
Record t := mk {
  process : Process.t;
  dump_files : list PathSpec;
  memory_regions : list ProcessMemoryRegion.t
}.
End YaraProcessDumpInformation.

Module YaraProcessDumpResponse.
Record t := mk {
  dumped_processes : list YaraProcessDumpInformation.t;
  errors : list ProcessMemoryError.t
}.
End YaraProcessDumpResponse.

Module YaraMatch.
Record t := mk { rule_name : string }.
End YaraMatch.

Module YaraProcessScanMatch.
Record t := mk { process : Process.t; match_ : list YaraMatch.t }.
End YaraProcessScanMatch.

Module YaraProcessScanMiss.
Record t := mk { process : Process.t }.
End YaraProcessScanMiss.

Module YaraProcessScanResponse.
Record t := mk {
  matches : list YaraProcessScanMatch.t;
  errors : list ProcessMemoryError.t;
  misses : list YaraProcessScanMiss.t
}.
End YaraProcessScanResponse.

(** The signature is known here by the rules [GetRules] yields. *)
Module YaraSignature.
Record t := mk { GetRules : list string }.
End YaraSignature.

Module YaraProcessScanRequest.
Record t := mk {
  yara_signature : YaraSignature.t;
  process_regex : string;
  dump_process_on_match : bool;
  include_errors_in_results : bool;
  include_misses_in_results : bool;
  skip_special_regions : bool;
  skip_mapped_files : bool;
  skip_shared_regions : bool;
  skip_executable_regions : bool;
  skip_readonly_regions : bool
}.
End YaraProcessScanRequest.

Module YaraProcessDumpArgs.
Record t := mk {
  pids : list Z;
  process_regex : string;
  dump_all_processes : bool;
  skip_special_regions : bool;
  skip_mapped_files : bool;
  skip_shared_regions : bool;
  skip_executable_regions : bool;
  skip_readonly_regions : bool
}.
End YaraProcessDumpArgs.

Module StatEntry.
Record t := mk { pathspec : PathSpec; st_size : Z }.
End StatEntry.

(** What a flow sends as a reply, and so what a parent flow receives. *)
Inductive RDFValue :=
| ScanMatch (m : YaraProcessScanMatch.t)
| ScanError (e : ProcessMemoryError.t)
| ScanMiss (m : YaraProcessScanMiss.t)
| DumpResponse (r : YaraProcessDumpResponse.t)
| FetchedFile (s : StatEntry.t).

(** The batch of responses a state method is resumed with. [status] is
    the text of the status. *)
Module Responses.
Record t (A : Type) := mk { success : bool; status : string; items : list A }.
Arguments mk {A}.
Arguments success {A}.
Arguments status {A}.
Arguments items {A}.
(** [responses.First()]: the first response, [None] when there is none. *)
Definition First {A} (r : t A) : option A := head (items r).
End Responses.

(** ** Exceptions and effects *)

Inductive exn :=
| FlowError (message : string)
| ValueError (message : string)
| UnpackError (expected got : nat)
| InvalidLiteral (base : Z) (literal : string)
| re_error (pattern : string)
| AttributeError.

(** Unpacking too few values and an invalid literal for [int] raise
    [ValueError] as well. *)
Definition is_ValueError (e : exn) : bool :=
  match e with
  | ValueError _ | UnpackError _ _ | InvalidLiteral _ _ => true
  | _ => false
  end.

Inductive ClientAction :=
| YaraProcessScan_action (request : YaraProcessScanRequest.t)
| YaraProcessDump_action (request : YaraProcessDumpArgs.t)
| DeleteGRRTempFiles_action (request : PathSpec).

Inductive ChildFlow :=
| DumpProcessMemory_flow (args : YaraProcessDumpArgs.t)
| MultiGetFile_flow (pathspecs : list PathSpec) (file_size : Z)
                    (use_external_stores : bool).

Inductive effect :=
| SendReply (v : RDFValue)
| CallClient (action : ClientAction) (next_state : string)
| CallFlow (child : ChildFlow) (next_state : string)
| Log (message : string)
| logging_debug (message : string).

Inductive outcome (A : Type) :=
| Returned (a : A)
| Raised (e : exn).
Arguments Returned {A}.
Arguments Raised {A}.

(** A piece of a state method: from the values of the variables it may
    assign, to their new values, the effects in order, and the outcome.
    After a [raise] nothing more runs; state and effects stay as they are
    at that point. *)
Definition flow (S A : Type) : Type := S -> S * list effect * outcome A.

Global Instance flow_ret {S} : MRet (flow S) :=
  fun A a s => (s, [], Returned a).

Global Instance flow_bind {S} : MBind (flow S) :=
  fun A B k m s =>
    match m s with
    | (s1, es1, Returned a) =>
        match k a s1 with
        | (s2, es2, o) => (s2, es1 ++ es2, o)
        end
    | (s1, es1, Raised e) => (s1, es1, Raised e)
    end.

Definition raise {S A} (e : exn) : flow S A := fun s => (s, [], Raised e).

Definition emit {S} (e : effect) : flow S unit := fun s => (s, [e], Returned tt).

Definition get {S} : flow S S := fun s => (s, [], Returned s).

Definition modify {S} (f : S -> S) : flow S unit := fun s => (f s, [], Returned tt).

(** [for x in xs: body]. *)
Fixpoint for_each {S A} (xs : list A) (body : A -> flow S unit) : flow S unit :=
  match xs with
  | [] => mret tt
  | x :: xs' => body x ;; for_each xs' body
  end.

(** [if c: body]. *)
Definition when {S} (c : bool) (body : flow S unit) : flow S unit :=
  if c then body else mret tt.

Definition effects {S A} (r : S * list effect * outcome A) : list effect := snd (fst r).
Definition final {S A} (r : S * list effect * outcome A) : S := fst (fst r).
Definition result {S A} (r : S * list effect * outcome A) : outcome A := snd r.

(** Run a piece that works on one object inside a larger state. *)
Definition zoom {S T A} (proj : S -> T) (upd : T -> S -> S) (m : flow T A) : flow S A :=
  fun s =>
    match m (proj s) with
    | (t, es, o) => (upd t s, es, o)
    end.

(** [for x in xs: body] where [body] assigns to attributes of [x]: the
    objects of the list are the state. *)
Fixpoint for_each_obj {A} (body : flow A unit) (xs : list A)
  : list A * list effect * outcome unit :=
  match xs with
  | [] => ([], [], Returned tt)
  | x :: xs' =>
      match body x with
      | (x1, es1, Returned _) =>
          match for_each_obj body xs' with
          | (xs1, es2, o) => (x1 :: xs1, es1 ++ es2, o)
          end
      | (x1, es1, Raised e) => (x1 :: xs', es1, Raised e)
      end
  end.

(** [a, b = xs] and [a, b, c, d = xs]. *)
Definition unpack2 {S} (xs : list string) : flow S (string * string) :=
  match xs with
  | [a; b] => mret (a, b)
  | _ => raise (UnpackError 2 (List.length xs))
  end.

Definition unpack4 {S} (xs : list string) : flow S (string * string * string * string) :=
  match xs with
  | [a; b; c; d] => mret (a, b, c, d)
  | _ => raise (UnpackError 4 (List.length xs))
  end.

Definition int_base16 {S} (s : string) : flow S Z :=
  match PyStr.int16 s with
  | Some n => mret n
  | None => raise (InvalidLiteral 16 s)
  end.

(** ** [_MigrateLegacyDumpFilesToMemoryAreas] *)

Definition Append_memory_region (r : ProcessMemoryRegion.t)
  (info : YaraProcessDumpInformation.t) : YaraProcessDumpInformation.t :=
  YaraProcessDumpInformation.mk
    (YaraProcessDumpInformation.process info)
    (YaraProcessDumpInformation.dump_files info)
    (YaraProcessDumpInformation.memory_regions info ++ [r]).

Definition clear_dump_files (info : YaraProcessDumpInformation.t)
  : YaraProcessDumpInformation.t :=
  YaraProcessDumpInformation.mk
    (YaraProcessDumpInformation.process info)
    []
    (YaraProcessDumpInformation.memory_regions info).

(** The body of the inner loop, for one [dump_file]; the state is the
    [info] it appends to. *)
Definition migrate_dump_file (dump_file : PathSpec)
  : flow YaraProcessDumpInformation.t unit :=
  '(path_without_ext, _) ← unpack2 (PyStr.rsplit "." 1 (Basename dump_file));
  '(_, _, start, end_) ← unpack4 (PyStr.rsplit "_" 3 path_without_ext);
  start ← int_base16 start;
  end_ ← int_base16 end_;
  modify (Append_memory_region
            (ProcessMemoryRegion.mk
               (_CanonicalizeLegacyWindowsPathSpec dump_file)
               start
               (end_ - start)%Z)).

(** The body of the outer loop, for one [info]. *)
Definition migrate_info : flow YaraProcessDumpInformation.t unit :=
  info ← get;
  for_each (YaraProcessDumpInformation.dump_files info) migrate_dump_file ;;
  modify clear_dump_files.

Definition set_dumped_processes (ps : list YaraProcessDumpInformation.t)
  (response : YaraProcessDumpResponse.t) : YaraProcessDumpResponse.t :=
  YaraProcessDumpResponse.mk ps (YaraProcessDumpResponse.errors response).

(** The state is the response, which is changed in place. *)
Definition _MigrateLegacyDumpFilesToMemoryAreas : flow YaraProcessDumpResponse.t unit :=
  zoom YaraProcessDumpResponse.dumped_processes set_dumped_processes
       (for_each_obj migrate_info).

Definition legacy_info (files : list string) : YaraProcessDumpInformation.t :=
  YaraProcessDumpInformation.mk (Process.mk 1234 "proc" "")
    (List.map (mkPathSpec 0) files) [].

(** ** String formatting *)

(** ["%d" % n]. *)
Definition fmt_d (n : Z) : string := pretty n.

(** [sorted(xs)] for strings, which Python compares by code point. *)
Definition sorted (xs : list string) : list string := merge_sort String.le xs.

(** ** The flow [YaraProcessScan] *)

Module YaraProcessScan.

Section Start.

(** [re.compile] is known here by whether it accepts a pattern. *)
Variable re_compiles : string -> bool.

Definition re_compile {S} (pattern : string) : flow S unit :=
  if re_compiles pattern then mret tt else raise (re_error pattern).

Definition Start (args : YaraProcessScanRequest.t) : flow unit unit :=
  let rules := YaraSignature.GetRules (YaraProcessScanRequest.yara_signature args) in
  match rules with
  | [] => raise (FlowError "No rules found in the signature specification.")
  | _ :: _ =>
      when (negb (String.eqb (YaraProcessScanRequest.process_regex args) ""))
           (re_compile (YaraProcessScanRequest.process_regex args)) ;;
      emit (CallClient (YaraProcessScan_action args) "ProcessScanResults")
  end.

End Start.

(** The keyword arguments of the [CallFlow]; the fields it does not name
    keep their defaults. *)
Definition dump_args (args : YaraProcessScanRequest.t) (pids : list Z)
  : YaraProcessDumpArgs.t :=
  YaraProcessDumpArgs.mk pids "" false
    (YaraProcessScanRequest.skip_special_regions args)
    (YaraProcessScanRequest.skip_mapped_files args)
    (YaraProcessScanRequest.skip_shared_regions args)
    (YaraProcessScanRequest.skip_executable_regions args)
    (YaraProcessScanRequest.skip_readonly_regions args).

Definition debug_line (match_ : YaraProcessScanMatch.t) : string :=
  let rules : gset string :=
    list_to_set (List.map YaraMatch.rule_name (YaraProcessScanMatch.match_ match_)) in
  let rules_string := PyStr.join "," (sorted (elements rules)) in
  "YaraScan match in pid "
    +:+ fmt_d (Process.pid (YaraProcessScanMatch.process match_))
    +:+ " (" +:+ Process.exe (YaraProcessScanMatch.process match_)
    +:+ ") for rules " +:+ rules_string +:+ ".".

(** The state is the local variable [pids_to_dump]. [list(pids_to_dump)]
    is [elements]: Python fixes no order for it either. *)
Definition ProcessScanResults (args : YaraProcessScanRequest.t)
  (responses : Responses.t YaraProcessScanResponse.t) : flow (gset Z) unit :=
  if negb (Responses.success responses) then
    raise (FlowError (Responses.status responses))
  else
    modify (fun _ => ∅) ;;
    for_each (Responses.items responses) (fun response =>
      for_each (YaraProcessScanResponse.matches response) (fun match_ =>
        emit (SendReply (ScanMatch match_)) ;;
        emit (logging_debug (debug_line match_)) ;;
        when (YaraProcessScanRequest.dump_process_on_match args)
             (modify (fun pids_to_dump =>
                        pids_to_dump ∪ {[ Process.pid (YaraProcessScanMatch.process match_) ]}))) ;;
      when (YaraProcessScanRequest.include_errors_in_results args)
           (for_each (YaraProcessScanResponse.errors response) (fun error =>
              emit (SendReply (ScanError error)))) ;;
      when (YaraProcessScanRequest.include_misses_in_results args)
           (for_each (YaraProcessScanResponse.misses response) (fun miss =>
              emit (SendReply (ScanMiss miss))))) ;;
    pids_to_dump ← get;
    when (negb (bool_decide (pids_to_dump = ∅)))
         (emit (CallFlow (DumpProcessMemory_flow (dump_args args (elements pids_to_dump)))
                         "CheckDumpProcessMemoryResults")).

Definition CheckDumpProcessMemoryResults (responses : Responses.t RDFValue)
  : flow unit unit :=
  if negb (Responses.success responses) then
    raise (FlowError (Responses.status responses))
  else
    for_each (Responses.items responses) (fun response =>
      emit (SendReply response)).

End YaraProcessScan.

(** ** The flow [DumpProcessMemory] *)

Module DumpProcessMemory.

Section Start.

Variable re_compiles : string -> bool.

Definition Start (args : YaraProcessDumpArgs.t) : flow unit unit :=
  when (negb (String.eqb (YaraProcessDumpArgs.process_regex args) ""))
       (YaraProcessScan.re_compile re_compiles (YaraProcessDumpArgs.process_regex args)) ;;
  if negb (YaraProcessDumpArgs.dump_all_processes args
           || negb (bool_decide (YaraProcessDumpArgs.pids args = []))
           || negb (String.eqb (YaraProcessDumpArgs.process_regex args) ""))
  then raise (ValueError "No processes to dump specified.")
  else emit (CallClient (YaraProcessDump_action args) "ProcessResults").

End Start.

(** What [ProcessResults] assigns to: the response objects of the batch,
    the first of which it migrates in place, and its local list. *)
Record vars := mkvars {
  units : list YaraProcessDumpResponse.t;
  dump_files_to_get : list PathSpec
}.

(** Run [m] on the object [responses.First()] names. Without a response
    [First] gives [None], and reading an attribute of it raises. *)
Definition on_first {A} (m : flow YaraProcessDumpResponse.t A) : flow vars A :=
  fun s =>
    match units s with
    | [] => (s, [], Raised AttributeError)
    | response :: others =>
        match m response with
        | (response1, es, o) => (mkvars (response1 :: others) (dump_files_to_get s), es, o)
        end
    end.

Definition error_line (error : ProcessMemoryError.t) : string :=
  let p := ProcessMemoryError.process error in
  "Error dumping process " +:+ Process.name p
    +:+ " (pid " +:+ fmt_d (Process.pid p) +:+ "): "
    +:+ ProcessMemoryError.error error.

Definition getting_line (dumped_process : YaraProcessDumpInformation.t) : string :=
  let p := YaraProcessDumpInformation.process dumped_process in
  "Getting "
    +:+ fmt_d (Z.of_nat (List.length (YaraProcessDumpInformation.memory_regions dumped_process)))
    +:+ " dump files for process " +:+ Process.name p
    +:+ " (pid " +:+ fmt_d (Process.pid p) +:+ ").".

Definition ProcessResults_body (success : bool) (status : string) : flow vars unit :=
  if negb success then raise (FlowError status)
  else
    on_first _MigrateLegacyDumpFilesToMemoryAreas ;;
    response ← on_first get;
    emit (SendReply (DumpResponse response)) ;;
    for_each (YaraProcessDumpResponse.errors response) (fun error =>
      emit (Log (error_line error))) ;;
    modify (fun s => mkvars (units s) []) ;;
    for_each (YaraProcessDumpResponse.dumped_processes response) (fun dumped_process =>
      emit (Log (getting_line dumped_process)) ;;
      for_each (YaraProcessDumpInformation.memory_regions dumped_process) (fun region =>
        modify (fun s => mkvars (units s)
                           (dump_files_to_get s ++ [ProcessMemoryRegion.file region])))) ;;
    s ← get;
    match dump_files_to_get s with
    | [] => emit (Log "No memory dumped, exiting.")
    | _ :: _ =>
        emit (CallFlow (MultiGetFile_flow (dump_files_to_get s)
                                          (1024 * 1024 * 1024) false)
                       "DeleteFiles")
    end.

(** The state method, resumed with the batch [responses]: its body runs
    on the objects of the batch. *)
Definition ProcessResults (responses : Responses.t YaraProcessDumpResponse.t)
  : vars * list effect * outcome unit :=
  ProcessResults_body (Responses.success responses) (Responses.status responses)
                      (mkvars (Responses.items responses) []).

Definition DeleteFiles (responses : Responses.t StatEntry.t) : flow unit unit :=
  if negb (Responses.success responses) then
    raise (FlowError (Responses.status responses))
  else
    for_each (Responses.items responses) (fun response =>
      emit (SendReply (FetchedFile response)) ;;
      emit (CallClient (DeleteGRRTempFiles_action (StatEntry.pathspec response))
                       "LogDeleteFiles")).

Definition LogDeleteFiles {A} (responses : Responses.t A) : flow unit unit :=
  if negb (Responses.success responses) then
    raise (FlowError ("Could not delete file: " +:+ Responses.status responses))
  else mret tt.

End DumpProcessMemory.

(** ** Definitions for the statements *)

(** What the body of the inner loop computes for one [dump_file] before
    it appends: the region, or the exception. *)
Definition dump_file_region (dump_file : PathSpec) : outcome ProcessMemoryRegion.t :=
  match PyStr.rsplit "." 1 (Basename dump_file) with
  | [path_without_ext; _] =>
      match PyStr.rsplit "_" 3 path_without_ext with
      | [_; _; start; end_] =>
          match PyStr.int16 start with
          | Some start =>
              match PyStr.int16 end_ with
              | Some end_ =>
                  Returned (ProcessMemoryRegion.mk
                              (_CanonicalizeLegacyWindowsPathSpec dump_file)
                              start (end_ - start)%Z)
              | None => Raised (InvalidLiteral 16 end_)
              end
          | None => Raised (InvalidLiteral 16 start)
          end
      | fields => Raised (UnpackError 4 (List.length fields))
      end
  | parts => Raised (UnpackError 2 (List.length parts))
  end.

(** The regions of the files before the first one that raises, and its
    exception. *)
Fixpoint regions_until_error (dump_files : list PathSpec)
  : list ProcessMemoryRegion.t * option exn :=
  match dump_files with
  | [] => ([], None)
  | f :: fs =>
      match dump_file_region f with
      | Returned r =>
          match regions_until_error fs with
          | (rs, e) => (r :: rs, e)
          end
      | Raised e => ([], Some e)
      end
  end.

(** The words of the design: "the filename (minus extension)" splits on
    the delimiter "into at least four fields with the last two being
    valid base-16 integers", here [start] and [end_]. *)
Definition well_formed_dump_name (filename : string) (start end_ : Z) : Prop :=
  ∃ stem ext fields s e,
    filename = stem +:+ String "." ext
    ∧ PyStr.contains "." ext = false
    ∧ PyStr.split "_" stem = fields ++ [s; e]
    ∧ (2 ≤ List.length fields)%nat
    ∧ PyStr.int16 s = Some start
    ∧ PyStr.int16 e = Some end_.

Definition well_formed_dump_file (dump_file : PathSpec) : Prop :=
  ∃ start end_, well_formed_dump_name (Basename dump_file) start end_.

(** The words of the design: the region record of a raw path. *)
Definition region_of_dump_file (dump_file : PathSpec) (r : ProcessMemoryRegion.t) : Prop :=
  ∃ start end_,
    well_formed_dump_name (Basename dump_file) start end_
    ∧ ProcessMemoryRegion.file r = _CanonicalizeLegacyWindowsPathSpec dump_file
    ∧ ProcessMemoryRegion.start r = start
    ∧ ProcessMemoryRegion.size r = (end_ - start)%Z.

(** A process after a complete migration: the regions of its raw paths
    are appended in order and [dump_files] is empty. *)
Definition migrated_info (info info' : YaraProcessDumpInformation.t) : Prop :=
  YaraProcessDumpInformation.process info' = YaraProcessDumpInformation.process info
  ∧ YaraProcessDumpInformation.dump_files info' = []
  ∧ ∃ regions,
      YaraProcessDumpInformation.memory_regions info'
      = YaraProcessDumpInformation.memory_regions info ++ regions
      ∧ Forall2 region_of_dump_file (YaraProcessDumpInformation.dump_files info) regions.

(** The sub-flows and the agent calls among the effects of a handler. *)
Definition spawned (es : list effect) : list (ChildFlow * string) :=
  omap (fun e => match e with
                 | CallFlow child next_state => Some (child, next_state)
                 | _ => None
                 end) es.

Definition dispatched (es : list effect) : list (ClientAction * string) :=
  omap (fun e => match e with
                 | CallClient action next_state => Some (action, next_state)
                 | _ => None
                 end) es.

(** The pids of the matches of a scan, over all responses, in order. *)
Definition matched_pids (responses : Responses.t YaraProcessScanResponse.t) : list Z :=
  flat_map (fun response =>
              List.map (fun match_ => Process.pid (YaraProcessScanMatch.process match_))
                       (YaraProcessScanResponse.matches response))
           (Responses.items responses).

(** What [ProcessScanResults] does for one response, as a list. *)
Definition scan_response_effects (args : YaraProcessScanRequest.t)
  (response : YaraProcessScanResponse.t) : list effect :=
  flat_map (fun match_ => [SendReply (ScanMatch match_);
                           logging_debug (YaraProcessScan.debug_line match_)])
           (YaraProcessScanResponse.matches response)
  ++ (if YaraProcessScanRequest.include_errors_in_results args
      then List.map (fun error => SendReply (ScanError error))
                    (YaraProcessScanResponse.errors response)
      else [])
  ++ (if YaraProcessScanRequest.include_misses_in_results args
      then List.map (fun miss => SendReply (ScanMiss miss))
                    (YaraProcessScanResponse.misses response)
      else []).

(** "every fileLocator across every DumpedProcessInfo's memoryRegions
    [flattened] into one ordered sequence" *)
Definition file_locators (response : YaraProcessDumpResponse.t) : list PathSpec :=
  flat_map (fun dumped_process =>
              List.map ProcessMemoryRegion.file
                       (YaraProcessDumpInformation.memory_regions dumped_process))
           (YaraProcessDumpResponse.dumped_processes response).

(** The log lines of [ProcessResults] before it decides about fetching. *)
Definition dump_log_lines (response : YaraProcessDumpResponse.t) : list effect :=
  List.map (fun error => Log (DumpProcessMemory.error_line error))
           (YaraProcessDumpResponse.errors response)
  ++ List.map (fun dumped_process => Log (DumpProcessMemory.getting_line dumped_process))
              (YaraProcessDumpResponse.dumped_processes response).

(** Modelled from the spec: the runner of [flow_base] is outside this
    module. It resumes [LogDeleteFiles] once for each acknowledgement, in
    the order they arrive, and "all four kinds [of error] terminate the
    owning task": after an exception no later acknowledgement is
    handled. *)
Definition deliver_deletion_acks {A} (acks : list (Responses.t A)) : flow unit unit :=
  for_each acks DumpProcessMemory.LogDeleteFiles.

(** The last effect of a [ProcessResults] that returns: the call of
    [MultiGetFile] for the locators, or the log line when there is none. *)
Definition fetch_or_stop (locators : list PathSpec) : effect :=
  match locators with
  | [] => Log "No memory dumped, exiting."
  | _ :: _ => CallFlow (MultiGetFile_flow locators (1024 * 1024 * 1024) false) "DeleteFiles"
  end.

(** ** Definitions for further statements *)

(** The replies among the effects of a handler. *)
Definition replies (es : list effect) : list RDFValue :=
  omap (fun e => match e with
                 | SendReply v => Some v
                 | _ => None
                 end) es.

(** What [ProcessScanResults] replies for one response. *)
Definition scan_response_replies (args : YaraProcessScanRequest.t)
  (response : YaraProcessScanResponse.t) : list RDFValue :=
  List.map ScanMatch (YaraProcessScanResponse.matches response)
  ++ (if YaraProcessScanRequest.include_errors_in_results args
      then List.map ScanError (YaraProcessScanResponse.errors response)
      else [])
  ++ (if YaraProcessScanRequest.include_misses_in_results args
      then List.map ScanMiss (YaraProcessScanResponse.misses response)
      else []).

(** ["%x" % n]: lower-case digits, most significant first, no prefix. *)
Definition hex_char (d : N) : ascii :=
  if (d <? 10)%N then ascii_of_N (48 + d) else ascii_of_N (87 + d).

Fixpoint hex_digits (fuel : nat) (n : N) (acc : string) : string :=
  match fuel with
  | O => acc
  | S fuel' =>
      let acc' := String (hex_char (n mod 16)) acc in
      if (n / 16 =? 0)%N then acc' else hex_digits fuel' (n / 16) acc'
  end.

Definition fmt_x (n : Z) : string :=
  match n with
  | Zneg p => "-" +:+ hex_digits (S (N.to_nat (N.log2 (Npos p)))) (Npos p) ""
  | _ => hex_digits (S (N.to_nat (N.log2 (Z.to_N n)))) (Z.to_N n) ""
  end.

(** The name old clients gave a dump file, as the comment in the inner
    loop of the migration has it:
    ["%s_%d_%x_%x.tmp" % (process.name, pid, start, end)]. *)
Definition legacy_dump_file_name (name : string) (pid start end_ : Z) : string :=
  name +:+ "_" +:+ fmt_d pid +:+ "_" +:+ fmt_x start +:+ "_" +:+ fmt_x end_ +:+ ".tmp".

(** The value of a string of digits in base 16, from [acc]. *)
Fixpoint horner16 (acc : Z) (s : string) : Z :=
  match s with
  | EmptyString => acc
  | String c s' =>
      horner16 (16 * acc + default 0%Z (PyStr.digit_value c))%Z s'
  end.

Definition is_hex_digit (c : ascii) : bool :=
  match PyStr.digit_value c with Some _ => true | None => false end.

Fixpoint all_chars (P : ascii → bool) (s : string) : bool :=
  match s with
  | EmptyString => true
  | String c s' => P c && all_chars P s'
  end.

(** What a legacy response asks to fetch: for each process, the files of
    the regions it has already, then its raw paths canonicalized. *)
Definition legacy_file_locators (response : YaraProcessDumpResponse.t) : list PathSpec :=
  flat_map (fun info =>
              List.map ProcessMemoryRegion.file
                       (YaraProcessDumpInformation.memory_regions info)
              ++ List.map _CanonicalizeLegacyWindowsPathSpec
                          (YaraProcessDumpInformation.dump_files info))
           (YaraProcessDumpResponse.dumped_processes response).

(** What [DeleteFiles] does for one fetched file. *)
Definition delete_file_effects (response : StatEntry.t) : list effect :=
  [SendReply (FetchedFile response);
   CallClient (DeleteGRRTempFiles_action (StatEntry.pathspec response)) "LogDeleteFiles"].

(** A process and what the migration may have made of it, however the
    migration ended. *)
Definition kept_info (info info' : YaraProcessDumpInformation.t) : Prop :=
  YaraProcessDumpInformation.process info' = YaraProcessDumpInformation.process info
  ∧ YaraProcessDumpInformation.memory_regions info
      `prefix_of` YaraProcessDumpInformation.memory_regions info'
  ∧ (YaraProcessDumpInformation.dump_files info'
     = YaraProcessDumpInformation.dump_files info
     ∨ YaraProcessDumpInformation.dump_files info' = []).

(** The words of the claim on well-formed names: "the filename (minus
    extension)" is the name without what follows its last dot, and the
    name itself when it has no dot; it "splits from the right on '_'
    into at least four fields with the last two being valid base-16
    integers", here [start] and [end_]. *)
Definition minus_extension (filename : string) : string :=
  match PyStr.rsplit "." 1 filename with
  | [stem; _] => stem
  | _ => filename
  end.

Definition claimed_dump_name (filename : string) (start end_ : Z) : Prop :=
  ∃ fields s e,
    PyStr.split "_" (minus_extension filename) = fields ++ [s; e]
    ∧ (2 ≤ List.length fields)%nat
    ∧ PyStr.int16 s = Some start
    ∧ PyStr.int16 e = Some end_.

(** The same with what the code needs besides: the name has a dot, so
    that there is an extension to take away. *)
Definition claimed_dump_file (dump_file : PathSpec) : Prop :=
  PyStr.contains "." (Basename dump_file) = true
  ∧ ∃ start end_, claimed_dump_name (Basename dump_file) start end_.

(** * Properties *)

(** ** The definitions on small inputs *)

Example split_ex : PyStr.split "\" "C:\Temp\x" = ["C:"; "Temp"; "x"].
Proof. reflexivity. Qed.

Example rsplit_ex : PyStr.rsplit "_" 3 "my_proc_1234_1a00_2000" = ["my_proc"; "1234"; "1a00"; "2000"].
Proof. reflexivity. Qed.

Example rsplit_ex2 : PyStr.rsplit "." 1 "a.b.tmp" = ["a.b"; "tmp"].
Proof. reflexivity. Qed.

Example rsplit_ex3 : PyStr.rsplit "." 1 "tmp" = ["tmp"].
Proof. reflexivity. Qed.

Example int16_ex : PyStr.int16 " -0x1A00 " = Some (-6656)%Z.
Proof. reflexivity. Qed.

Example int16_ex2 : PyStr.int16 "1a00" = Some 6656%Z /\ PyStr.int16 "" = None /\ PyStr.int16 "0x" = None /\ PyStr.int16 "12g" = None.
Proof. repeat split; reflexivity. Qed.

Example canon_ex1 :
  _CanonicalizeLegacyWindowsPathSpec (mkPathSpec 0 "C:\Windows\System32\GRR")
  = mkPathSpec 0 "/C:/Windows/System32/GRR".
Proof. reflexivity. Qed.

Example canon_ex2 :
  _CanonicalizeLegacyWindowsPathSpec (mkPathSpec 0 "/C:/Windows/System32/GRR")
  = mkPathSpec 0 "/C:/Windows/System32/GRR".
Proof. reflexivity. Qed.

Example canon_ex3 :
  _CanonicalizeLegacyWindowsPathSpec (mkPathSpec 0 "C:\Windows/x")
  = mkPathSpec 0 "C:\Windows/x".
Proof. reflexivity. Qed.

Example canon_obj_ex :
  fst <$> (_CanonicalizeLegacyWindowsPathSpec_obj {[ 0%nat := mkPathSpec 0 "C:\a" ]} 0%nat)
  = Some ({[ 0%nat := mkPathSpec 0 "C:\a"; 1%nat := mkPathSpec 0 "/C:/a" ]} : gmap ref PathSpec).
Proof. vm_compute. reflexivity. Qed.

Example migrate_ex1 :
  _MigrateLegacyDumpFilesToMemoryAreas
    (YaraProcessDumpResponse.mk [legacy_info ["proc_1234_1a00_2000.tmp"]] [])
  = (YaraProcessDumpResponse.mk
       [YaraProcessDumpInformation.mk (Process.mk 1234 "proc" "") []
          [ProcessMemoryRegion.mk (mkPathSpec 0 "proc_1234_1a00_2000.tmp") 6656 1536]] [],
     [], Returned tt).
Proof. reflexivity. Qed.

Example migrate_ex2 :
  _MigrateLegacyDumpFilesToMemoryAreas
    (YaraProcessDumpResponse.mk [legacy_info ["C:\Temp\my_proc_7_10_20.tmp"; "oops.tmp"]] [])
  = (YaraProcessDumpResponse.mk
       [YaraProcessDumpInformation.mk (Process.mk 1234 "proc" "")
          [mkPathSpec 0 "C:\Temp\my_proc_7_10_20.tmp"; mkPathSpec 0 "oops.tmp"]
          [ProcessMemoryRegion.mk (mkPathSpec 0 "/C:/Temp/my_proc_7_10_20.tmp") 16 16]] [],
     [], Raised (UnpackError 4 1)).
Proof. reflexivity. Qed.

(** ** Strings *)

Lemma append_char (c : ascii) (s : string) : String c "" +:+ s = String c s.
Proof. reflexivity. Qed.

Lemma append_cons (c : ascii) (s t : string) : String c s +:+ t = String c (s +:+ t).
Proof. reflexivity. Qed.

Lemma split_not_nil (sep : ascii) (s : string) : PyStr.split sep s ≠ [].
Proof.
  destruct s as [|a s]; simpl; [discriminate|].
  destruct (Ascii.eqb a sep); [discriminate|].
  destruct (PyStr.split sep s); discriminate.
Qed.

Lemma join_cons_char (sep : string) (c : ascii) (f : string) (fs : list string) :
  PyStr.join sep (String c f :: fs) = String c (PyStr.join sep (f :: fs)).
Proof. destruct fs; reflexivity. Qed.

(** Joining the fields of a split with another character is replacing
    the separator by it. *)
Lemma join_split_replace (a b : ascii) (s : string) :
  PyStr.join (String b "") (PyStr.split a s) = replace_char a b s.
Proof.
  induction s as [|c s IH]; simpl; [reflexivity|].
  destruct (Ascii.eqb c a).
  - destruct (PyStr.split a s) as [|f fs] eqn:E.
    + exfalso. exact (split_not_nil a s E).
    + rewrite <- IH. reflexivity.
  - destruct (PyStr.split a s) as [|f fs] eqn:E.
    + exfalso. exact (split_not_nil a s E).
    + rewrite join_cons_char, IH. reflexivity.
Qed.

Lemma replace_char_length (a b : ascii) (s : string) :
  String.length (replace_char a b s) = String.length s.
Proof. induction s; simpl; congruence. Qed.

Lemma slice_1_3_spec (p : string) :
  String.eqb (PyStr.slice 1 3 p) ":\" = true
  ↔ ∃ c rest, p = String c (String ":" (String "\" rest)).
Proof.
  rewrite String.eqb_eq. unfold PyStr.slice. split.
  - destruct p as [|c [|c1 [|c2 rest]]]; simpl; intros H; try discriminate H.
    destruct rest; simpl in H; injection H as -> ->; eauto.
  - intros (c & rest & ->). simpl. destruct rest; reflexivity.
Qed.

(** ** [_CanonicalizeLegacyWindowsPathSpec] *)

Lemma looks_like_legacy_windows_spec (p : string) :
  looks_like_legacy_windows p = true
  ↔ (∃ c rest, p = String c (String ":" (String "\" rest)))
    ∧ PyStr.contains "/" p = false.
Proof.
  unfold looks_like_legacy_windows.
  rewrite andb_true_iff, negb_true_iff, slice_1_3_spec. reflexivity.
Qed.

Lemma canonicalize_taken (ps : PathSpec) :
  looks_like_legacy_windows (path ps) = true →
  _CanonicalizeLegacyWindowsPathSpec ps
  = mkPathSpec (pathtype ps) (String "/" (replace_char "\" "/" (path ps))).
Proof.
  intros H. unfold _CanonicalizeLegacyWindowsPathSpec. rewrite H. simpl.
  rewrite (join_split_replace "\" "/"). reflexivity.
Qed.

Lemma canonicalize_not_taken (ps : PathSpec) :
  looks_like_legacy_windows (path ps) = false →
  _CanonicalizeLegacyWindowsPathSpec ps = ps.
Proof.
  intros H. unfold _CanonicalizeLegacyWindowsPathSpec. rewrite H.
  destruct ps; reflexivity.
Qed.

Lemma slash_not_legacy (p : string) :
  PyStr.contains "/" p = true → looks_like_legacy_windows p = false.
Proof.
  intros H. unfold looks_like_legacy_windows. rewrite H. apply andb_false_r.
Qed.

Lemma cons_neq_self (c : ascii) (s t : string) :
  String.length t = String.length s → String c t ≠ s.
Proof. intros Hl E. rewrite <- E in Hl. simpl in Hl. lia. Qed.

(** C4, as the design words it, fails: the test of the function looks at
    the second and third character only, so a path whose first character
    is a digit is rewritten as well. *)
Lemma canonicalize_rewrites_without_letter :
  let ps := mkPathSpec 0 "1:\a" in
  path (_CanonicalizeLegacyWindowsPathSpec ps) = "/1:/a"
  ∧ path (_CanonicalizeLegacyWindowsPathSpec ps) ≠ path ps
  ∧ ¬ legacy_absolute_form (path ps).
Proof.
  simpl. split; [reflexivity|]. split; [discriminate|].
  intros [(letter & rest & Hl & E) _]. injection E as <- <-. discriminate Hl.
Qed.

(** C4, amended: the path is rewritten exactly when its second and third
    characters are a colon and a backslash, whatever the first character
    is, and it has no forward slash. The rewritten path is a slash
    followed by the input with every backslash replaced by a slash, so
    that a drive letter and the colon stay; otherwise the path is the
    input's. The path type is copied. On objects: the result is a newly
    allocated object and the store is otherwise as before, the argument
    included. *)
Theorem canonicalize_correct (ps : PathSpec) :
  let out := _CanonicalizeLegacyWindowsPathSpec ps in
  (path out ≠ path ps
   ↔ (∃ c rest, path ps = String c (String ":" (String "\" rest)))
     ∧ PyStr.contains "/" (path ps) = false)
  ∧ (path out ≠ path ps → path out = String "/" (replace_char "\" "/" (path ps)))
  ∧ (∀ letter rest,
       is_letter letter = true →
       path ps = String letter (String ":" (String "\" rest)) →
       PyStr.contains "/" (path ps) = false →
       path out = String "/" (String letter (String ":" (String "/" (replace_char "\" "/" rest)))))
  ∧ (path out = path ps ∨ path out ≠ path ps)
  ∧ pathtype out = pathtype ps
  ∧ (∀ (σ : gmap ref PathSpec) (l : ref),
       σ !! l = Some ps →
       ∃ l', _CanonicalizeLegacyWindowsPathSpec_obj σ l = Some (<[l' := out]> σ, l')
             ∧ σ !! l' = None
             ∧ l' ≠ l
             ∧ (<[l' := out]> σ) !! l = Some ps).
Proof.
  intros out. subst out.
  destruct (looks_like_legacy_windows (path ps)) eqn:Hb.
  - pose proof (canonicalize_taken ps Hb) as E.
    pose proof (proj1 (looks_like_legacy_windows_spec _) Hb) as Hs.
    assert (Hne : path (_CanonicalizeLegacyWindowsPathSpec ps) ≠ path ps).
    { rewrite E. simpl. apply cons_neq_self, replace_char_length. }
    split; [tauto|]. split; [rewrite E; reflexivity|].
    split.
    { intros letter rest Hl Hp _. rewrite E. simpl. rewrite Hp. simpl.
      destruct letter as [[] [] [] [] [] [] [] []]; try discriminate Hl; reflexivity. }
    split; [right; exact Hne|]. split; [rewrite E; reflexivity|].
    intros σ l Hl. exists (fresh (dom σ)).
    assert (Hfresh : σ !! fresh (dom σ) = None).
    { apply not_elem_of_dom, is_fresh. }
    assert (Hneq : fresh (dom σ) ≠ l) by (intros Heq; rewrite Heq in Hfresh; congruence).
    split; [|split; [exact Hfresh|split; [exact Hneq|]]].
    + unfold _CanonicalizeLegacyWindowsPathSpec_obj. rewrite Hl. simpl.
      rewrite Hb. unfold set_path. rewrite alter_insert_eq. simpl.
      rewrite E. rewrite (join_split_replace "\" "/"). reflexivity.
    + rewrite lookup_insert_ne by exact Hneq. exact Hl.
  - pose proof (canonicalize_not_taken ps Hb) as E. rewrite E.
    assert (Hn : ¬ ((∃ c rest, path ps = String c (String ":" (String "\" rest)))
                    ∧ PyStr.contains "/" (path ps) = false)).
    { intros H. apply looks_like_legacy_windows_spec in H. congruence. }
    split; [split; [congruence|tauto]|]. split; [congruence|].
    split.
    { intros letter rest _ Hp Hc. exfalso. apply Hn. eauto. }
    split; [left; reflexivity|]. split; [reflexivity|].
    intros σ l Hl. exists (fresh (dom σ)).
    assert (Hfresh : σ !! fresh (dom σ) = None).
    { apply not_elem_of_dom, is_fresh. }
    assert (Hneq : fresh (dom σ) ≠ l) by (intros Heq; rewrite Heq in Hfresh; congruence).
    split; [|split; [exact Hfresh|split; [exact Hneq|]]].
    + unfold _CanonicalizeLegacyWindowsPathSpec_obj. rewrite Hl. simpl.
      rewrite Hb. destruct ps; reflexivity.
    + rewrite lookup_insert_ne by exact Hneq. exact Hl.
Qed.

(** C5: canonicalizing twice is canonicalizing once, and a path with a
    forward slash comes back as it is. *)
Theorem canonicalize_idempotent :
  (∀ ps, _CanonicalizeLegacyWindowsPathSpec (_CanonicalizeLegacyWindowsPathSpec ps)
         = _CanonicalizeLegacyWindowsPathSpec ps)
  ∧ (∀ ps, PyStr.contains "/" (path ps) = true →
           _CanonicalizeLegacyWindowsPathSpec ps = ps).
Proof.
  assert (Hfix : ∀ ps, PyStr.contains "/" (path ps) = true →
                       _CanonicalizeLegacyWindowsPathSpec ps = ps).
  { intros ps H. apply canonicalize_not_taken, slash_not_legacy, H. }
  split; [|exact Hfix].
  intros ps. destruct (looks_like_legacy_windows (path ps)) eqn:Hb.
  - rewrite (canonicalize_taken ps Hb). apply Hfix. reflexivity.
  - rewrite (canonicalize_not_taken ps Hb). apply canonicalize_not_taken, Hb.
Qed.

Lemma canonicalize_idempotent_witness :
  PyStr.contains "/" (path (mkPathSpec 0 "/tmp/grr/x.tmp")) = true
  ∧ _CanonicalizeLegacyWindowsPathSpec (mkPathSpec 0 "/tmp/grr/x.tmp")
    = mkPathSpec 0 "/tmp/grr/x.tmp".
Proof.
  split; [reflexivity|].
  apply (proj2 canonicalize_idempotent (mkPathSpec 0 "/tmp/grr/x.tmp")).
  reflexivity.
Defined.

(** ** [split], [join] and [rsplit] *)

Lemma append_assoc (s t u : string) : (s +:+ t) +:+ u = s +:+ (t +:+ u).
Proof. induction s as [|c s IH]; [reflexivity|]. rewrite !append_cons, IH. reflexivity. Qed.

Lemma replace_char_same (a : ascii) (s : string) : replace_char a a s = s.
Proof.
  induction s as [|c s IH]; simpl; [reflexivity|].
  rewrite IH. destruct (Ascii.eqb_spec c a); congruence.
Qed.

Lemma join_split_id (sep : ascii) (s : string) :
  PyStr.join (String sep "") (PyStr.split sep s) = s.
Proof. rewrite join_split_replace. apply replace_char_same. Qed.

Lemma split_app_sep (sep : ascii) (s t : string) :
  PyStr.split sep (s +:+ String sep t) = PyStr.split sep s ++ PyStr.split sep t.
Proof.
  induction s as [|c s IH].
  - simpl. unfold String.append. simpl. rewrite Ascii.eqb_refl. reflexivity.
  - rewrite append_cons. simpl. rewrite IH.
    destruct (Ascii.eqb c sep); [reflexivity|].
    destruct (PyStr.split sep s) as [|f fs] eqn:E; [|reflexivity].
    exfalso. exact (split_not_nil sep s E).
Qed.

Lemma split_no_sep (sep : ascii) (t : string) :
  PyStr.contains sep t = false → PyStr.split sep t = [t].
Proof.
  induction t as [|c t IH]; simpl; [reflexivity|].
  destruct (Ascii.eqb c sep); [discriminate|].
  intros H. rewrite (IH H). reflexivity.
Qed.

Lemma split_fields_no_sep (sep : ascii) (s : string) :
  Forall (fun f => PyStr.contains sep f = false) (PyStr.split sep s).
Proof.
  induction s as [|c s IH]; simpl.
  - constructor; [reflexivity|constructor].
  - destruct (Ascii.eqb c sep) eqn:Ec.
    + constructor; [reflexivity|exact IH].
    + destruct (PyStr.split sep s) as [|f fs].
      * constructor; [simpl; rewrite Ec; reflexivity|constructor].
      * inversion IH; subst. constructor; [simpl; rewrite Ec; assumption|assumption].
Qed.

Lemma join_snoc (sep : string) (front : list string) (x : string) :
  front ≠ [] →
  PyStr.join sep (front ++ [x]) = PyStr.join sep front +:+ sep +:+ x.
Proof.
  induction front as [|f [|g fs] IH]; intros Hne; [congruence|reflexivity|].
  change (PyStr.join sep ((f :: g :: fs) ++ [x]))
    with (f +:+ sep +:+ PyStr.join sep ((g :: fs) ++ [x])).
  rewrite IH by discriminate.
  change (PyStr.join sep (f :: g :: fs)) with (f +:+ sep +:+ PyStr.join sep (g :: fs)).
  rewrite !append_assoc. reflexivity.
Qed.

(** When the fields are [front ++ back] with as many fields in [back] as
    splits are allowed, [rsplit] joins [front] back into one field. *)
Lemma rsplit_intro (sep : ascii) (n : nat) (s : string) (front back : list string) :
  PyStr.split sep s = front ++ back →
  front ≠ [] →
  List.length back = n →
  PyStr.rsplit sep n s = PyStr.join (String sep "") front :: back.
Proof.
  intros Hs Hne Hn. unfold PyStr.rsplit. rewrite Hs.
  rewrite length_app, Hn.
  replace (List.length front + n - n)%nat with (List.length front) by lia.
  destruct front as [|f [|g fs]]; [congruence|reflexivity|].
  cbv zeta. cbn [List.length].
  rewrite take_app_length', drop_app_length' by reflexivity. reflexivity.
Qed.

(** Conversely, [n + 1] fields from [rsplit] come from such a
    decomposition. *)
Lemma rsplit_inv (sep : ascii) (n : nat) (s : string) (l : list string) :
  PyStr.rsplit sep n s = l →
  List.length l = S n →
  ∃ front back,
    front ≠ [] ∧ PyStr.split sep s = front ++ back ∧ List.length back = n
    ∧ l = PyStr.join (String sep "") front :: back.
Proof.
  unfold PyStr.rsplit. intros Hr Hl.
  remember (PyStr.split sep s) as fields eqn:Ef.
  destruct (List.length fields - n)%nat as [|[|k]] eqn:Ek.
  - subst l. lia.
  - subst l. destruct fields as [|f back]; [discriminate|].
    exists [f], back. simpl in Hl. repeat split; [discriminate|lia].
  - exists (take (S (S k)) fields), (drop (S (S k)) fields).
    assert (Hlen : (S (S k) ≤ List.length fields)%nat) by lia.
    repeat split.
    + destruct fields; [simpl in Hlen; lia|discriminate].
    + symmetry. apply take_drop.
    + rewrite length_drop. lia.
    + congruence.
Qed.

(** ** The file names the migration accepts *)

Lemma extension_split (filename stem ext : string) :
  filename = stem +:+ String "." ext ∧ PyStr.contains "." ext = false
  ↔ PyStr.rsplit "." 1 filename = [stem; ext].
Proof.
  split.
  - intros [-> Hext].
    rewrite (rsplit_intro "." 1 _ (PyStr.split "." stem) [ext]).
    + rewrite join_split_id. reflexivity.
    + rewrite split_app_sep, (split_no_sep _ _ Hext). reflexivity.
    + apply split_not_nil.
    + reflexivity.
  - intros Hr.
    destruct (rsplit_inv "." 1 filename _ Hr eq_refl)
      as (front & back & Hne & Hs & Hlen & Hl).
    injection Hl as Hstem Hback. subst back.
    split.
    + rewrite <- (join_split_id "." filename), Hs, join_snoc by exact Hne.
      rewrite <- Hstem. reflexivity.
    + pose proof (split_fields_no_sep "." filename) as HF.
      rewrite Hs in HF. apply Forall_app in HF as [_ HF].
      inversion HF; assumption.
Qed.

Lemma offsets_split (stem s e : string) :
  (∃ fields, PyStr.split "_" stem = fields ++ [s; e] ∧ (2 ≤ List.length fields)%nat)
  ↔ ∃ a b, PyStr.rsplit "_" 3 stem = [a; b; s; e].
Proof.
  split.
  - intros (fields & Hs & Hlen).
    destruct (List.rev fields) as [|b front] eqn:Er.
    { apply (f_equal (@List.length _)) in Er. rewrite length_rev in Er.
      simpl in Er. lia. }
    assert (Hf : fields = List.rev front ++ [b]).
    { rewrite <- (rev_involutive fields), Er. reflexivity. }
    exists (PyStr.join "_" (List.rev front)), b.
    apply rsplit_intro.
    + rewrite Hs, Hf, <- app_assoc. reflexivity.
    + intros E. rewrite Hf, E in Hlen. simpl in Hlen. lia.
    + reflexivity.
  - intros (a & b & Hr).
    destruct (rsplit_inv "_" 3 stem _ Hr eq_refl)
      as (front & back & Hne & Hs & Hlen & Hl).
    injection Hl as _ Hback. subst back.
    exists (front ++ [b]). split.
    + rewrite Hs, <- app_assoc. reflexivity.
    + rewrite length_app. simpl. destruct front; [congruence|simpl; lia].
Qed.

Lemma rsplit_length_le (sep : ascii) (n : nat) (s : string) :
  (List.length (PyStr.rsplit sep n s) ≤ S n)%nat.
Proof.
  unfold PyStr.rsplit.
  destruct (List.length (PyStr.split sep s) - n)%nat as [|[|k]] eqn:Ek; [lia|lia|].
  simpl. rewrite length_drop. lia.
Qed.

(** The code accepts a raw path exactly when its file name is well
    formed in the words of the design, and then builds the region the
    design describes. *)
Lemma dump_file_region_Returned (f : PathSpec) (r : ProcessMemoryRegion.t) :
  dump_file_region f = Returned r ↔ region_of_dump_file f r.
Proof.
  unfold dump_file_region, region_of_dump_file, well_formed_dump_name. split.
  - destruct (PyStr.rsplit "." 1 (Basename f)) as [|stem [|ext [|? ?]]] eqn:Hext;
      try discriminate.
    destruct (PyStr.rsplit "_" 3 stem) as [|a [|b [|s [|e [|? ?]]]]] eqn:Hoff;
      try discriminate.
    destruct (PyStr.int16 s) as [start|] eqn:Hs; [|discriminate].
    destruct (PyStr.int16 e) as [end_|] eqn:He; [|discriminate].
    intros [= <-]. exists start, end_. simpl.
    apply extension_split in Hext as [Hname Hdot].
    destruct (proj2 (offsets_split stem s e)) as (fields & Hf & Hlen); [eauto|].
    split; [|auto]. exists stem, ext, fields, s, e. repeat split; assumption.
  - intros (start & end_ & (stem & ext & fields & s & e & Hname & Hdot & Hf & Hlen & Hs & He)
            & Hfile & Hstart & Hsize).
    rewrite (proj1 (extension_split _ _ _) (conj Hname Hdot)).
    destruct (proj1 (offsets_split stem s e)) as (a & b & Hr); [eauto|].
    rewrite Hr, Hs, He. destruct r; simpl in *. congruence.
Qed.

Lemma dump_file_region_Raised (f : PathSpec) (e : exn) :
  dump_file_region f = Raised e → is_ValueError e = true.
Proof.
  unfold dump_file_region.
  repeat match goal with
         | |- context [match ?x with _ => _ end] => destruct x
         end; intros [= <-]; reflexivity.
Qed.

Lemma malformed_raises (f : PathSpec) :
  ¬ well_formed_dump_file f →
  ∃ e, dump_file_region f = Raised e ∧ is_ValueError e = true.
Proof.
  intros Hn. destruct (dump_file_region f) as [r|e] eqn:E.
  - exfalso. apply Hn. apply dump_file_region_Returned in E.
    destruct E as (start & end_ & Hwf & _). exists start, end_. exact Hwf.
  - exists e. split; [reflexivity|]. exact (dump_file_region_Raised f e E).
Qed.

Lemma well_formed_returns (f : PathSpec) :
  well_formed_dump_file f → ∃ r, dump_file_region f = Returned r.
Proof.
  intros (start & end_ & Hwf).
  exists (ProcessMemoryRegion.mk (_CanonicalizeLegacyWindowsPathSpec f) start (end_ - start)%Z).
  apply dump_file_region_Returned. exists start, end_. auto.
Qed.

(** ** [_MigrateLegacyDumpFilesToMemoryAreas] *)

Lemma migrate_dump_file_run (f : PathSpec) (info : YaraProcessDumpInformation.t) :
  migrate_dump_file f info
  = match dump_file_region f with
    | Returned r => (Append_memory_region r info, [], Returned tt)
    | Raised e => (info, [], Raised e)
    end.
Proof.
  unfold migrate_dump_file, dump_file_region, mbind, flow_bind, unpack2, unpack4,
    int_base16, mret, flow_ret, raise, modify.
  destruct (PyStr.rsplit "." 1 (Basename f)) as [|stem [|ext [|? ?]]]; try reflexivity.
  destruct (PyStr.rsplit "_" 3 stem) as [|a [|b [|s [|e [|? ?]]]]]; try reflexivity.
  destruct (PyStr.int16 s); [|reflexivity].
  destruct (PyStr.int16 e); reflexivity.
Qed.

Lemma for_each_migrate_run (files : list PathSpec) (info : YaraProcessDumpInformation.t) :
  for_each files migrate_dump_file info
  = (YaraProcessDumpInformation.mk
       (YaraProcessDumpInformation.process info)
       (YaraProcessDumpInformation.dump_files info)
       (YaraProcessDumpInformation.memory_regions info
          ++ fst (regions_until_error files)),
     [],
     match snd (regions_until_error files) with
     | None => Returned tt
     | Some e => Raised e
     end).
Proof.
  revert info. induction files as [|f fs IH]; intros info.
  - simpl. rewrite app_nil_r. destruct info; reflexivity.
  - simpl. unfold mbind, flow_bind. rewrite migrate_dump_file_run.
    destruct (dump_file_region f) as [r|e].
    + rewrite IH. destruct (regions_until_error fs) as [rs oe]. simpl.
      rewrite <- app_assoc. reflexivity.
    + simpl. rewrite app_nil_r. destruct info; reflexivity.
Qed.

Lemma migrate_info_run (info : YaraProcessDumpInformation.t) :
  migrate_info info
  = match regions_until_error (YaraProcessDumpInformation.dump_files info) with
    | (rs, None) =>
        (YaraProcessDumpInformation.mk
           (YaraProcessDumpInformation.process info) []
           (YaraProcessDumpInformation.memory_regions info ++ rs),
         [], Returned tt)
    | (rs, Some e) =>
        (YaraProcessDumpInformation.mk
           (YaraProcessDumpInformation.process info)
           (YaraProcessDumpInformation.dump_files info)
           (YaraProcessDumpInformation.memory_regions info ++ rs),
         [], Raised e)
    end.
Proof.
  unfold migrate_info, mbind, flow_bind, get. rewrite for_each_migrate_run.
  destruct (regions_until_error _) as [rs [e|]]; reflexivity.
Qed.

Lemma regions_complete (files : list PathSpec) (rs : list ProcessMemoryRegion.t) :
  regions_until_error files = (rs, None) → Forall2 region_of_dump_file files rs.
Proof.
  revert rs. induction files as [|f fs IH]; intros rs; simpl.
  - intros [= <-]. constructor.
  - destruct (dump_file_region f) as [r|e] eqn:E; [|discriminate].
    destruct (regions_until_error fs) as [rs' oe]. intros [= <- ->].
    constructor; [apply dump_file_region_Returned, E|apply IH; reflexivity].
Qed.

Lemma regions_have_well_formed (files : list PathSpec) (rs : list ProcessMemoryRegion.t) :
  Forall2 region_of_dump_file files rs → Forall well_formed_dump_file files.
Proof.
  induction 1 as [|f r fs rs (start & end_ & Hwf & _) _ IH]; constructor.
  - exists start, end_. exact Hwf.
  - exact IH.
Qed.

Lemma regions_well_formed (files : list PathSpec) :
  Forall well_formed_dump_file files →
  ∃ rs, regions_until_error files = (rs, None).
Proof.
  induction 1 as [|f fs Hf _ IH]; simpl; [eauto|].
  destruct (well_formed_returns f Hf) as [r ->].
  destruct IH as [rs ->]. eauto.
Qed.

Lemma regions_interrupted (files : list PathSpec) (rs : list ProcessMemoryRegion.t) (e : exn) :
  regions_until_error files = (rs, Some e) →
  ∃ good bad rest,
    files = good ++ bad :: rest
    ∧ Forall2 region_of_dump_file good rs
    ∧ dump_file_region bad = Raised e.
Proof.
  revert rs. induction files as [|f fs IH]; intros rs; simpl; [discriminate|].
  destruct (dump_file_region f) as [r|e'] eqn:E.
  - destruct (regions_until_error fs) as [rs' oe]. intros [= <- ->].
    destruct (IH rs' eq_refl) as (good & bad & rest & -> & HF & Hbad).
    exists (f :: good), bad, rest. split; [reflexivity|]. split; [|exact Hbad].
    constructor; [apply dump_file_region_Returned, E|exact HF].
  - intros [= <- <-]. exists [], f, fs. split; [reflexivity|]. split; [constructor|exact E].
Qed.

Lemma raised_not_well_formed (f : PathSpec) (e : exn) :
  dump_file_region f = Raised e → ¬ well_formed_dump_file f.
Proof.
  intros E Hwf. destruct (well_formed_returns f Hwf) as [r Hr]. congruence.
Qed.

Lemma migrate_run (response : YaraProcessDumpResponse.t) :
  _MigrateLegacyDumpFilesToMemoryAreas response
  = (YaraProcessDumpResponse.mk
       (final (for_each_obj migrate_info (YaraProcessDumpResponse.dumped_processes response)))
       (YaraProcessDumpResponse.errors response),
     effects (for_each_obj migrate_info (YaraProcessDumpResponse.dumped_processes response)),
     result (for_each_obj migrate_info (YaraProcessDumpResponse.dumped_processes response))).
Proof.
  unfold _MigrateLegacyDumpFilesToMemoryAreas, zoom.
  destruct (for_each_obj _ _) as [[t es] o]. reflexivity.
Qed.

(** A batch of well-formed processes is migrated completely. *)
Lemma migrate_infos_complete (infos : list YaraProcessDumpInformation.t) :
  Forall (fun info => Forall well_formed_dump_file (YaraProcessDumpInformation.dump_files info))
         infos →
  ∃ infos', for_each_obj migrate_info infos = (infos', [], Returned tt)
            ∧ Forall2 migrated_info infos infos'.
Proof.
  induction 1 as [|info infos Hinfo _ IH]; simpl.
  - exists []. split; [reflexivity|constructor].
  - rewrite migrate_info_run.
    destruct (regions_well_formed _ Hinfo) as [rs Hrs]. rewrite Hrs.
    destruct IH as (infos' & -> & HF).
    eexists. split; [reflexivity|]. constructor; [|exact HF].
    split; [reflexivity|]. split; [reflexivity|].
    exists rs. split; [reflexivity|]. apply regions_complete, Hrs.
Qed.

(** With a malformed file name somewhere, the migration stops at the
    first one, and what it did until then is done. *)
Lemma migrate_infos_interrupted (infos : list YaraProcessDumpInformation.t) :
  Exists (fun info => Exists (fun f => ¬ well_formed_dump_file f)
                             (YaraProcessDumpInformation.dump_files info)) infos →
  ∃ e pre info post good bad rest pre' regions,
    is_ValueError e = true
    ∧ infos = pre ++ info :: post
    ∧ YaraProcessDumpInformation.dump_files info = good ++ bad :: rest
    ∧ ¬ well_formed_dump_file bad
    ∧ Forall2 migrated_info pre pre'
    ∧ Forall2 region_of_dump_file good regions
    ∧ for_each_obj migrate_info infos
      = (pre' ++ YaraProcessDumpInformation.mk
                   (YaraProcessDumpInformation.process info)
                   (YaraProcessDumpInformation.dump_files info)
                   (YaraProcessDumpInformation.memory_regions info ++ regions)
              :: post,
         [], Raised e).
Proof.
  induction infos as [|info infos IH]; intros HE; [inversion HE|].
  simpl. rewrite migrate_info_run.
  destruct (regions_until_error (YaraProcessDumpInformation.dump_files info))
    as [rs [e|]] eqn:Hrs.
  - destruct (regions_interrupted _ _ _ Hrs) as (good & bad & rest & Hfiles & HF & Hbad).
    exists e, [], info, infos, good, bad, rest, [], rs.
    split; [exact (dump_file_region_Raised _ _ Hbad)|].
    split; [reflexivity|]. split; [exact Hfiles|].
    split; [exact (raised_not_well_formed _ _ Hbad)|].
    split; [constructor|]. split; [exact HF|reflexivity].
  - assert (Htail : Exists (fun info => Exists (fun f => ¬ well_formed_dump_file f)
                              (YaraProcessDumpInformation.dump_files info)) infos).
    { inversion HE as [? ? Hhead|]; subst; [|assumption]. exfalso.
      pose proof (regions_have_well_formed _ _ (regions_complete _ _ Hrs)) as HF.
      apply Exists_exists in Hhead as (f & Hin & Hnwf).
      rewrite Forall_forall in HF. exact (Hnwf (HF f Hin)). }
    destruct (IH Htail)
      as (e & pre & info0 & post & good & bad & rest & pre' & regions
          & He & -> & Hfiles & Hbad & Hpre & Hgood & ->).
    exists e, (info :: pre), info0, post, good, bad, rest,
      (YaraProcessDumpInformation.mk (YaraProcessDumpInformation.process info) []
         (YaraProcessDumpInformation.memory_regions info ++ rs) :: pre'), regions.
    split; [exact He|]. split; [reflexivity|]. split; [exact Hfiles|].
    split; [exact Hbad|]. split; [|split; [exact Hgood|reflexivity]].
    constructor; [|exact Hpre].
    split; [reflexivity|]. split; [reflexivity|].
    exists rs. split; [reflexivity|]. apply regions_complete, Hrs.
Qed.

Lemma returned_region_well_formed (f : PathSpec) (r : ProcessMemoryRegion.t) :
  dump_file_region f = Returned r → well_formed_dump_file f.
Proof.
  intros E. apply dump_file_region_Returned in E.
  destruct E as (start & end_ & Hwf & _). exists start, end_. exact Hwf.
Qed.

Lemma contains_append (sep : ascii) (s t : string) :
  PyStr.contains sep (s +:+ String sep t) = true.
Proof.
  induction s as [|c s IH]; [simpl; rewrite Ascii.eqb_refl; reflexivity|].
  rewrite append_cons. simpl. rewrite IH. destruct (Ascii.eqb c sep); reflexivity.
Qed.

Lemma split_two_fields (sep : ascii) (s : string) :
  PyStr.contains sep s = true → (2 ≤ List.length (PyStr.split sep s))%nat.
Proof.
  induction s as [|c s IH]; simpl; [discriminate|].
  destruct (Ascii.eqb c sep).
  - intros _. pose proof (split_not_nil sep s).
    destruct (PyStr.split sep s); [congruence|simpl; lia].
  - intros H. specialize (IH H). destruct (PyStr.split sep s); simpl in *; lia.
Qed.

Lemma rsplit_once (sep : ascii) (s : string) :
  PyStr.contains sep s = true → ∃ stem ext, PyStr.rsplit sep 1 s = [stem; ext].
Proof.
  intros H. pose proof (split_two_fields sep s H) as Hlen.
  unfold PyStr.rsplit.
  destruct (List.length (PyStr.split sep s) - 1)%nat as [|[|k]] eqn:Ek; [lia| |].
  - destruct (PyStr.split sep s) as [|a [|b [|c l]]]; simpl in *; try lia. eauto.
  - assert (Hd : List.length (drop (S (S k)) (PyStr.split sep s)) = 1%nat)
      by (rewrite length_drop; lia).
    destruct (drop (S (S k)) (PyStr.split sep s)) as [|ext [|? ?]]; simpl in Hd; try lia.
    eauto.
Qed.

(** The names the code accepts are those of the claim that have a dot. *)
Lemma well_formed_is_claimed_with_dot (filename : string) (start end_ : Z) :
  well_formed_dump_name filename start end_
  ↔ PyStr.contains "." filename = true ∧ claimed_dump_name filename start end_.
Proof.
  unfold well_formed_dump_name, claimed_dump_name, minus_extension. split.
  - intros (stem & ext & fields & s & e & Hname & Hdot & Hf & Hlen & Hs & He).
    split; [rewrite Hname; apply contains_append|].
    rewrite (proj1 (extension_split _ _ _) (conj Hname Hdot)).
    exists fields, s, e. repeat split; assumption.
  - intros [Hdot (fields & s & e & Hf & Hlen & Hs & He)].
    destruct (rsplit_once "." filename Hdot) as (stem & ext & Hr).
    rewrite Hr in Hf.
    apply extension_split in Hr as [Hname Hext].
    exists stem, ext, fields, s, e. repeat split; assumption.
Qed.

Lemma claimed_file_well_formed (f : PathSpec) :
  claimed_dump_file f ↔ well_formed_dump_file f.
Proof.
  unfold claimed_dump_file, well_formed_dump_file. split.
  - intros (Hdot & start & end_ & Hc). exists start, end_.
    apply well_formed_is_claimed_with_dot. split; assumption.
  - intros (start & end_ & Hwf).
    apply well_formed_is_claimed_with_dot in Hwf as [Hdot Hc]. split; eauto.
Qed.

Lemma claimed_files_well_formed (infos : list YaraProcessDumpInformation.t) :
  Forall (fun info => Forall claimed_dump_file (YaraProcessDumpInformation.dump_files info))
         infos →
  Forall (fun info => Forall well_formed_dump_file
                             (YaraProcessDumpInformation.dump_files info)) infos.
Proof.
  intros H. eapply Forall_impl; [exact H|]. intros info Hinfo.
  eapply Forall_impl; [exact Hinfo|]. intros f. apply claimed_file_well_formed.
Qed.

Lemma regions_until_error_app (good rest : list PathSpec)
  (rs : list ProcessMemoryRegion.t) :
  regions_until_error good = (rs, None) →
  regions_until_error (good ++ rest)
  = (rs ++ fst (regions_until_error rest), snd (regions_until_error rest)).
Proof.
  revert rs. induction good as [|f good IH]; intros rs; simpl.
  - intros [= <-]. destruct (regions_until_error rest); reflexivity.
  - destruct (dump_file_region f) as [r|e]; [|discriminate].
    destruct (regions_until_error good) as [rs' oe]. intros [= <- ->].
    rewrite (IH rs' eq_refl). reflexivity.
Qed.

Lemma migrate_info_regions (info : YaraProcessDumpInformation.t) :
  YaraProcessDumpInformation.memory_regions (final (migrate_info info))
  = YaraProcessDumpInformation.memory_regions info
      ++ fst (regions_until_error (YaraProcessDumpInformation.dump_files info)).
Proof.
  rewrite migrate_info_run.
  destruct (regions_until_error _) as [rs [e|]]; reflexivity.
Qed.

(** The migration gets to a process when the raw paths of the processes
    before it are well formed. *)
Lemma migrate_infos_reach (pre post : list YaraProcessDumpInformation.t)
  (info : YaraProcessDumpInformation.t) :
  Forall (fun info => Forall well_formed_dump_file
                             (YaraProcessDumpInformation.dump_files info)) pre →
  final (for_each_obj migrate_info (pre ++ info :: post)) !! List.length pre
  = Some (final (migrate_info info)).
Proof.
  induction 1 as [|head pre Hhead _ IH].
  - simpl. destruct (migrate_info info) as [[info1 es1] [[]|e]]; [|reflexivity].
    destruct (for_each_obj migrate_info post) as [[post1 es2] o]. reflexivity.
  - simpl. rewrite migrate_info_run.
    destruct (regions_well_formed _ Hhead) as [rs ->].
    destruct (for_each_obj migrate_info (pre ++ info :: post)) as [[infos1 es2] o].
    exact IH.
Qed.

(** C1, as the claim words it, fails in two ways. A file name without a
    dot has no extension to take away: [proc_1234_1a00_2000] has four
    fields with two hexadecimal numbers at the end, and the migration
    raises on it without appending anything. And a well-formed path that
    comes after a malformed one is never reached: the migration raises
    before, and no region is appended for it. *)
Lemma migrate_needs_extension_and_reach :
  let bare := YaraProcessDumpResponse.mk [legacy_info ["proc_1234_1a00_2000"]] [] in
  let late := YaraProcessDumpResponse.mk
                [legacy_info ["oops.tmp"; "proc_1234_1a00_2000.tmp"]] [] in
  (claimed_dump_name (Basename (mkPathSpec 0 "proc_1234_1a00_2000")) 0x1a00 0x2000
   ∧ _MigrateLegacyDumpFilesToMemoryAreas bare = (bare, [], Raised (UnpackError 2 1)))
  ∧ (claimed_dump_name (Basename (mkPathSpec 0 "proc_1234_1a00_2000.tmp")) 0x1a00 0x2000
     ∧ _MigrateLegacyDumpFilesToMemoryAreas late = (late, [], Raised (UnpackError 4 1))).
Proof.
  cbv zeta. split; (split; [|reflexivity]).
  - exists ["proc"; "1234"], "1a00", "2000". repeat split. simpl. lia.
  - exists ["proc"; "1234"], "1a00", "2000". repeat split. simpl. lia.
Qed.

(** C1, amended. Take a raw path whose file name has a dot and, without
    what follows the last dot, splits on ['_'] into at least four fields
    with the last two valid base-16 integers, and which the migration
    reaches: the raw paths before it, in the processes before and in its
    own process, are of that kind too. Then, however the migration ends
    afterwards, the process of the path has a region for it appended
    after what it had and after the regions of the paths before: start
    is the parsed start, size is end minus start, file is the
    canonicalized raw path. That file has the path type of the raw path,
    and its path is a slash followed by the raw path with every
    backslash a slash when the raw path is [X:\...] without a slash, and
    the raw path otherwise. When every raw path of the response is of
    that kind, the migration returns, with one such region per raw path
    in order and with [dump_files] empty in every process. In particular
    [proc_1234_1a00_2000.tmp] gives start 0x1a00 and size 0x600, also as
    [C:\Temp\proc_1234_1a00_2000.tmp], whose file becomes
    [/C:/Temp/proc_1234_1a00_2000.tmp]. *)
Theorem migrate_appends_regions :
  (∀ response pre info post good f rest start end_,
     YaraProcessDumpResponse.dumped_processes response = pre ++ info :: post →
     YaraProcessDumpInformation.dump_files info = good ++ f :: rest →
     Forall (fun info => Forall claimed_dump_file
                                (YaraProcessDumpInformation.dump_files info)) pre →
     Forall claimed_dump_file good →
     PyStr.contains "." (Basename f) = true →
     claimed_dump_name (Basename f) start end_ →
     ∃ info' before after,
       YaraProcessDumpResponse.dumped_processes
         (final (_MigrateLegacyDumpFilesToMemoryAreas response)) !! List.length pre
       = Some info'
       ∧ YaraProcessDumpInformation.memory_regions info'
         = YaraProcessDumpInformation.memory_regions info
             ++ before
             ++ ProcessMemoryRegion.mk (_CanonicalizeLegacyWindowsPathSpec f)
                                       start (end_ - start)%Z
             :: after
       ∧ Forall2 region_of_dump_file good before)
  ∧ (∀ f,
       pathtype (_CanonicalizeLegacyWindowsPathSpec f) = pathtype f
       ∧ ((∃ c rest, path f = String c (String ":" (String "\" rest)))
          ∧ PyStr.contains "/" (path f) = false →
          path (_CanonicalizeLegacyWindowsPathSpec f)
          = String "/" (replace_char "\" "/" (path f)))
       ∧ (¬ ((∃ c rest, path f = String c (String ":" (String "\" rest)))
             ∧ PyStr.contains "/" (path f) = false) →
          path (_CanonicalizeLegacyWindowsPathSpec f) = path f))
  ∧ (∀ response,
       Forall (fun info => Forall claimed_dump_file
                                  (YaraProcessDumpInformation.dump_files info))
              (YaraProcessDumpResponse.dumped_processes response) →
       ∃ infos',
         _MigrateLegacyDumpFilesToMemoryAreas response
         = (YaraProcessDumpResponse.mk infos' (YaraProcessDumpResponse.errors response),
            [], Returned tt)
         ∧ Forall2 migrated_info (YaraProcessDumpResponse.dumped_processes response) infos'
         ∧ Forall (fun info' => YaraProcessDumpInformation.dump_files info' = []) infos')
  ∧ _MigrateLegacyDumpFilesToMemoryAreas
      (YaraProcessDumpResponse.mk [legacy_info ["proc_1234_1a00_2000.tmp"]] [])
    = (YaraProcessDumpResponse.mk
         [YaraProcessDumpInformation.mk (Process.mk 1234 "proc" "") []
            [ProcessMemoryRegion.mk (mkPathSpec 0 "proc_1234_1a00_2000.tmp")
                                    0x1a00 0x600]] [],
       [], Returned tt)
  ∧ _MigrateLegacyDumpFilesToMemoryAreas
      (YaraProcessDumpResponse.mk [legacy_info ["C:\Temp\proc_1234_1a00_2000.tmp"]] [])
    = (YaraProcessDumpResponse.mk
         [YaraProcessDumpInformation.mk (Process.mk 1234 "proc" "") []
            [ProcessMemoryRegion.mk (mkPathSpec 0 "/C:/Temp/proc_1234_1a00_2000.tmp")
                                    0x1a00 0x600]] [],
       [], Returned tt).
Proof.
  split; [|split; [|split; [|split; reflexivity]]].
  - intros response pre info post good f rest start end_ Hdp Hfiles Hpre Hgood Hdot Hname.
    apply claimed_files_well_formed in Hpre.
    assert (Hgood' : Forall well_formed_dump_file good).
    { eapply Forall_impl; [exact Hgood|]. intros g. apply claimed_file_well_formed. }
    assert (Hf : dump_file_region f
                 = Returned (ProcessMemoryRegion.mk (_CanonicalizeLegacyWindowsPathSpec f)
                                                    start (end_ - start)%Z)).
    { apply dump_file_region_Returned. exists start, end_.
      split; [|repeat split].
      apply well_formed_is_claimed_with_dot. split; assumption. }
    destruct (regions_well_formed _ Hgood') as [before Hbefore].
    exists (final (migrate_info info)), before,
      (fst (regions_until_error rest)).
    split; [|split].
    + rewrite migrate_run, Hdp. unfold final at 1. cbn [fst YaraProcessDumpResponse.dumped_processes].
      apply migrate_infos_reach, Hpre.
    + rewrite migrate_info_regions, Hfiles, (regions_until_error_app _ _ _ Hbefore).
      cbn [fst regions_until_error]. rewrite Hf.
      destruct (regions_until_error rest) as [rs oe]. reflexivity.
    + apply regions_complete, Hbefore.
  - intros f. destruct (looks_like_legacy_windows (path f)) eqn:Hb.
    + rewrite (canonicalize_taken f Hb). simpl. split; [reflexivity|].
      split; [reflexivity|]. intros Hn. exfalso. apply Hn.
      apply looks_like_legacy_windows_spec, Hb.
    + rewrite (canonicalize_not_taken f Hb). split; [reflexivity|].
      split; [|reflexivity]. intros H.
      apply looks_like_legacy_windows_spec in H. congruence.
  - intros response H. apply claimed_files_well_formed in H. rewrite migrate_run.
    destruct (migrate_infos_complete _ H) as (infos' & -> & HF).
    exists infos'. split; [reflexivity|]. split; [exact HF|].
    clear H. induction HF as [|info info' infos infos' (_ & Hd & _) _ IH];
      constructor; assumption.
Qed.

Lemma migrate_appends_regions_witness :
  let f := mkPathSpec 0 "proc_1234_1a00_2000.tmp" in
  let info := legacy_info ["a_1_10_20.tmp"; "proc_1234_1a00_2000.tmp"; "oops.tmp"] in
  let response := YaraProcessDumpResponse.mk [legacy_info ["b_2_0_ff.tmp"]; info] [] in
  (Forall (fun info => Forall claimed_dump_file
                              (YaraProcessDumpInformation.dump_files info))
          [legacy_info ["b_2_0_ff.tmp"]]
   ∧ Forall claimed_dump_file [mkPathSpec 0 "a_1_10_20.tmp"]
   ∧ PyStr.contains "." (Basename f) = true
   ∧ claimed_dump_name (Basename f) 0x1a00 0x2000)
  ∧ result (_MigrateLegacyDumpFilesToMemoryAreas response) = Raised (UnpackError 4 1)
  ∧ ∃ info' before after,
      YaraProcessDumpResponse.dumped_processes
        (final (_MigrateLegacyDumpFilesToMemoryAreas response)) !! 1%nat
      = Some info'
      ∧ YaraProcessDumpInformation.memory_regions info'
        = YaraProcessDumpInformation.memory_regions info
            ++ before
            ++ ProcessMemoryRegion.mk (_CanonicalizeLegacyWindowsPathSpec f) 0x1a00 0x600
            :: after
      ∧ Forall2 region_of_dump_file [mkPathSpec 0 "a_1_10_20.tmp"] before.
Proof.
  intros f info response.
  assert (Hc : ∀ p r, dump_file_region (mkPathSpec 0 p) = Returned r →
                      claimed_dump_file (mkPathSpec 0 p)).
  { intros p r Hr. apply claimed_file_well_formed.
    exact (returned_region_well_formed _ _ Hr). }
  assert (Hpre : Forall (fun info => Forall claimed_dump_file
                                            (YaraProcessDumpInformation.dump_files info))
                        [legacy_info ["b_2_0_ff.tmp"]]).
  { repeat constructor. eapply Hc. reflexivity. }
  assert (Hgood : Forall claimed_dump_file [mkPathSpec 0 "a_1_10_20.tmp"]).
  { repeat constructor. eapply Hc. reflexivity. }
  assert (Hname : claimed_dump_name (Basename f) 0x1a00 0x2000).
  { exists ["proc"; "1234"], "1a00", "2000". repeat split. simpl. lia. }
  split; [repeat split; assumption|]. split; [reflexivity|].
  exact (proj1 migrate_appends_regions response [legacy_info ["b_2_0_ff.tmp"]] info []
           [mkPathSpec 0 "a_1_10_20.tmp"] f [mkPathSpec 0 "oops.tmp"] 0x1a00%Z 0x2000%Z
           eq_refl eq_refl Hpre Hgood eq_refl Hname).
Defined.

(** C2, as the design words it, fails: the regions are appended in place
    while the loop runs, and nothing takes them back when a later file
    name raises. Here the first raw path is well formed and the second is
    not: the call raises and leaves the region of the first. *)
Lemma migrate_failure_keeps_earlier_regions :
  let response :=
    YaraProcessDumpResponse.mk [legacy_info ["a_1_10_20.tmp"; "oops.tmp"]] [] in
  Exists (fun info => Exists (fun f => ¬ well_formed_dump_file f)
                             (YaraProcessDumpInformation.dump_files info))
         (YaraProcessDumpResponse.dumped_processes response)
  ∧ result (_MigrateLegacyDumpFilesToMemoryAreas response) = Raised (UnpackError 4 1)
  ∧ final (_MigrateLegacyDumpFilesToMemoryAreas response) ≠ response
  ∧ YaraProcessDumpInformation.memory_regions <$>
      YaraProcessDumpResponse.dumped_processes
        (final (_MigrateLegacyDumpFilesToMemoryAreas response))
    = [[ProcessMemoryRegion.mk (mkPathSpec 0 "a_1_10_20.tmp") 16 16]].
Proof.
  cbv zeta. split; [|split; [reflexivity|split; [discriminate|reflexivity]]].
  constructor. simpl. apply Exists_cons_tl, Exists_cons_hd.
  apply (raised_not_well_formed _ (UnpackError 4 1)). reflexivity.
Qed.

(** C2, amended: a response with a malformed file name makes the
    migration raise [ValueError], at the first such name in the order of
    the loops, and the response keeps what was done until then: the
    processes before are migrated, the process of the malformed name
    keeps its [dump_files] and has the regions of the raw paths before
    the malformed one appended, the processes after it are untouched. *)
Theorem migrate_malformed_aborts (response : YaraProcessDumpResponse.t) :
  Exists (fun info => Exists (fun f => ¬ well_formed_dump_file f)
                             (YaraProcessDumpInformation.dump_files info))
         (YaraProcessDumpResponse.dumped_processes response) →
  ∃ e pre info post good bad rest pre' regions,
    is_ValueError e = true
    ∧ YaraProcessDumpResponse.dumped_processes response = pre ++ info :: post
    ∧ YaraProcessDumpInformation.dump_files info = good ++ bad :: rest
    ∧ ¬ well_formed_dump_file bad
    ∧ Forall2 migrated_info pre pre'
    ∧ Forall2 region_of_dump_file good regions
    ∧ _MigrateLegacyDumpFilesToMemoryAreas response
      = (YaraProcessDumpResponse.mk
           (pre' ++ YaraProcessDumpInformation.mk
                      (YaraProcessDumpInformation.process info)
                      (YaraProcessDumpInformation.dump_files info)
                      (YaraProcessDumpInformation.memory_regions info ++ regions)
                 :: post)
           (YaraProcessDumpResponse.errors response),
         [], Raised e).
Proof.
  intros H.
  destruct (migrate_infos_interrupted _ H)
    as (e & pre & info & post & good & bad & rest & pre' & regions
        & He & Hdp & Hfiles & Hbad & Hpre & Hgood & Hrun).
  exists e, pre, info, post, good, bad, rest, pre', regions.
  rewrite migrate_run, Hrun. repeat split; assumption.
Qed.

Lemma migrate_malformed_aborts_witness :
  let response :=
    YaraProcessDumpResponse.mk [legacy_info ["a_1_10_20.tmp"; "oops.tmp"]] [] in
  Exists (fun info => Exists (fun f => ¬ well_formed_dump_file f)
                             (YaraProcessDumpInformation.dump_files info))
         (YaraProcessDumpResponse.dumped_processes response)
  ∧ ∃ e pre info post good bad rest pre' regions,
      is_ValueError e = true
      ∧ YaraProcessDumpResponse.dumped_processes response = pre ++ info :: post
      ∧ YaraProcessDumpInformation.dump_files info = good ++ bad :: rest
      ∧ ¬ well_formed_dump_file bad
      ∧ Forall2 migrated_info pre pre'
      ∧ Forall2 region_of_dump_file good regions
      ∧ _MigrateLegacyDumpFilesToMemoryAreas response
        = (YaraProcessDumpResponse.mk
             (pre' ++ YaraProcessDumpInformation.mk
                        (YaraProcessDumpInformation.process info)
                        (YaraProcessDumpInformation.dump_files info)
                        (YaraProcessDumpInformation.memory_regions info ++ regions)
                   :: post)
             (YaraProcessDumpResponse.errors response),
           [], Raised e).
Proof.
  cbv zeta.
  assert (H : Exists (fun info => Exists (fun f => ¬ well_formed_dump_file f)
                                         (YaraProcessDumpInformation.dump_files info))
                     [legacy_info ["a_1_10_20.tmp"; "oops.tmp"]]).
  { constructor. simpl. apply Exists_cons_tl, Exists_cons_hd.
    apply (raised_not_well_formed _ (UnpackError 4 1)). reflexivity. }
  split; [exact H|].
  exact (migrate_malformed_aborts
           (YaraProcessDumpResponse.mk [legacy_info ["a_1_10_20.tmp"; "oops.tmp"]] []) H).
Defined.

(** ** Running pieces of a state method *)

Lemma bind_run {S A B} (m : flow S A) (k : A → flow S B) (s : S) :
  (m ≫= k) s
  = match m s with
    | (s1, es1, Returned a) =>
        match k a s1 with
        | (s2, es2, o) => (s2, es1 ++ es2, o)
        end
    | (s1, es1, Raised e) => (s1, es1, Raised e)
    end.
Proof. reflexivity. Qed.

Lemma emit_run {S} (e : effect) (s : S) : emit e s = (s, [e], Returned tt).
Proof. reflexivity. Qed.

Lemma modify_run {S} (f : S → S) (s : S) : modify f s = (f s, [], Returned tt).
Proof. reflexivity. Qed.

Lemma get_run {S} (s : S) : get s = (s, [], Returned s).
Proof. reflexivity. Qed.

Lemma ret_run {S A} (a : A) (s : S) : mret (M := flow S) a s = (s, [], Returned a).
Proof. reflexivity. Qed.

Lemma raise_run {S A} (e : exn) (s : S) : raise (A := A) e s = (s, [], Raised e).
Proof. reflexivity. Qed.

Lemma when_run {S} (c : bool) (body : flow S unit) (s : S) :
  when c body s = if c then body s else (s, [], Returned tt).
Proof. destruct c; reflexivity. Qed.

Lemma for_each_emit {S A} (g : A → effect) (xs : list A) (s : S) :
  for_each xs (fun x => emit (g x)) s = (s, List.map g xs, Returned tt).
Proof.
  induction xs as [|x xs IH]; [reflexivity|].
  simpl. rewrite bind_run, emit_run, IH. reflexivity.
Qed.

Lemma spawned_app (es1 es2 : list effect) :
  spawned (es1 ++ es2) = spawned es1 ++ spawned es2.
Proof. apply omap_app. Qed.

Lemma dispatched_app (es1 es2 : list effect) :
  dispatched (es1 ++ es2) = dispatched es1 ++ dispatched es2.
Proof. apply omap_app. Qed.

(** ** The [Start] methods *)

(** C3: a request that names no process (no [dump_all_processes], no
    pid, no regex) makes [DumpProcessMemory.Start] raise [ValueError]
    with the message of the source, and the method has had no effect: no
    call to the agent was issued. *)
Theorem dump_start_nothing_to_dump (re_compiles : string → bool)
  (args : YaraProcessDumpArgs.t) (s : unit) :
  YaraProcessDumpArgs.dump_all_processes args = false →
  YaraProcessDumpArgs.pids args = [] →
  YaraProcessDumpArgs.process_regex args = "" →
  DumpProcessMemory.Start re_compiles args s
  = (s, [], Raised (ValueError "No processes to dump specified."))
  ∧ dispatched (effects (DumpProcessMemory.Start re_compiles args s)) = [].
Proof.
  intros Hall Hpids Hre.
  assert (E : DumpProcessMemory.Start re_compiles args s
              = (s, [], Raised (ValueError "No processes to dump specified."))).
  { unfold DumpProcessMemory.Start. rewrite bind_run, Hall, Hpids, Hre. reflexivity. }
  rewrite E. split; reflexivity.
Qed.

Lemma dump_start_nothing_to_dump_witness :
  let args := YaraProcessDumpArgs.mk [] "" false true true false false false in
  (YaraProcessDumpArgs.dump_all_processes args = false
   ∧ YaraProcessDumpArgs.pids args = []
   ∧ YaraProcessDumpArgs.process_regex args = "")
  ∧ DumpProcessMemory.Start (fun _ => true) args tt
    = (tt, [], Raised (ValueError "No processes to dump specified."))
  ∧ dispatched (effects (DumpProcessMemory.Start (fun _ => true) args tt)) = [].
Proof.
  cbv zeta. split; [repeat split|].
  apply (dump_start_nothing_to_dump (fun _ => true)
           (YaraProcessDumpArgs.mk [] "" false true true false false false) tt);
    reflexivity.
Defined.

(** C9: a signature without rules makes [YaraProcessScan.Start] raise
    [FlowError] with the "No rules found" message of the source, and the
    method has had no effect: no call to the agent was issued. *)
Theorem scan_start_no_rules (re_compiles : string → bool)
  (args : YaraProcessScanRequest.t) (s : unit) :
  YaraSignature.GetRules (YaraProcessScanRequest.yara_signature args) = [] →
  YaraProcessScan.Start re_compiles args s
  = (s, [], Raised (FlowError "No rules found in the signature specification."))
  ∧ dispatched (effects (YaraProcessScan.Start re_compiles args s)) = [].
Proof.
  intros Hrules.
  assert (E : YaraProcessScan.Start re_compiles args s
              = (s, [], Raised (FlowError "No rules found in the signature specification."))).
  { unfold YaraProcessScan.Start. rewrite Hrules. reflexivity. }
  rewrite E. split; reflexivity.
Qed.

Lemma scan_start_no_rules_witness :
  let args :=
    YaraProcessScanRequest.mk (YaraSignature.mk []) "(" true true true
                              false false false false false in
  YaraSignature.GetRules (YaraProcessScanRequest.yara_signature args) = []
  ∧ YaraProcessScan.Start (fun _ => false) args tt
    = (tt, [], Raised (FlowError "No rules found in the signature specification."))
  ∧ dispatched (effects (YaraProcessScan.Start (fun _ => false) args tt)) = [].
Proof.
  cbv zeta. split; [reflexivity|].
  apply (scan_start_no_rules (fun _ => false)
           (YaraProcessScanRequest.mk (YaraSignature.mk []) "(" true true true
                                      false false false false false) tt).
  reflexivity.
Defined.

(** ** Deletion acknowledgements *)

Lemma deliver_successes {A} (acks : list (Responses.t A)) (s : unit) :
  Forall (fun ack => Responses.success ack = true) acks →
  deliver_deletion_acks acks s = (s, [], Returned tt).
Proof.
  unfold deliver_deletion_acks.
  induction 1 as [|ack acks Hack _ IH]; [reflexivity|].
  simpl. rewrite bind_run. unfold DumpProcessMemory.LogDeleteFiles at 1.
  rewrite Hack. simpl. rewrite IH. reflexivity.
Qed.

(** C8: an acknowledgement that reports failure makes [LogDeleteFiles]
    raise [FlowError] with "Could not delete file: " and the status,
    whatever the flow did before. So when the acknowledgements arrive one
    after the other, the first failure ends the flow with that error, how
    many deletions succeeded before it and how many are still to be
    acknowledged after it. *)
Theorem delete_failure_is_fatal {A} (failed : Responses.t A) (s : unit) :
  Responses.success failed = false →
  DumpProcessMemory.LogDeleteFiles failed s
  = (s, [], Raised (FlowError ("Could not delete file: " +:+ Responses.status failed)))
  ∧ ∀ succeeded outstanding : list (Responses.t A),
      Forall (fun ack => Responses.success ack = true) succeeded →
      deliver_deletion_acks (succeeded ++ failed :: outstanding) s
      = (s, [], Raised (FlowError ("Could not delete file: " +:+ Responses.status failed))).
Proof.
  intros Hf.
  assert (E : ∀ s, DumpProcessMemory.LogDeleteFiles failed s
              = (s, [], Raised (FlowError ("Could not delete file: "
                                             +:+ Responses.status failed)))).
  { intros s'. unfold DumpProcessMemory.LogDeleteFiles. rewrite Hf. reflexivity. }
  split; [apply E|].
  intros succeeded outstanding Hs. unfold deliver_deletion_acks.
  induction Hs as [|ack acks Hack _ IH]; simpl; rewrite bind_run.
  - rewrite E. reflexivity.
  - unfold DumpProcessMemory.LogDeleteFiles at 1. rewrite Hack. simpl.
    rewrite IH. reflexivity.
Qed.

Lemma delete_failure_is_fatal_witness :
  let ok := Responses.mk (A := unit) true "OK" [] in
  let failed := Responses.mk (A := unit) false "ERROR: busy" [] in
  Responses.success failed = false
  ∧ deliver_deletion_acks [ok; failed; ok] tt
    = (tt, [], Raised (FlowError "Could not delete file: ERROR: busy")).
Proof.
  cbv zeta. split; [reflexivity|].
  apply (proj2 (delete_failure_is_fatal
                  (Responses.mk (A := unit) false "ERROR: busy" []) tt eq_refl)
               [Responses.mk true "OK" []] [Responses.mk true "OK" []]).
  repeat constructor.
Defined.

(** Run the straight-line pieces in front of the goal. *)
Ltac run_flow :=
  repeat first
    [ rewrite bind_run | rewrite emit_run | rewrite modify_run | rewrite get_run
    | rewrite ret_run | rewrite raise_run | rewrite when_run | rewrite for_each_emit
    | progress cbv beta iota ].

(** ** [YaraProcessScan.ProcessScanResults] *)


Lemma scan_matches_run (args : YaraProcessScanRequest.t)
  (matches : list YaraProcessScanMatch.t) (s : gset Z) :
  for_each matches (fun match_ =>
    emit (SendReply (ScanMatch match_)) ;;
    emit (logging_debug (YaraProcessScan.debug_line match_)) ;;
    when (YaraProcessScanRequest.dump_process_on_match args)
         (modify (fun pids_to_dump =>
                    pids_to_dump ∪ {[ Process.pid (YaraProcessScanMatch.process match_) ]}))) s
  = (if YaraProcessScanRequest.dump_process_on_match args
     then s ∪ list_to_set
                (List.map (fun match_ => Process.pid (YaraProcessScanMatch.process match_))
                          matches)
     else s,
     flat_map (fun match_ => [SendReply (ScanMatch match_);
                              logging_debug (YaraProcessScan.debug_line match_)]) matches,
     Returned tt).
Proof.
  revert s. induction matches as [|m ms IH]; intros s.
  - simpl. rewrite ret_run. destruct (YaraProcessScanRequest.dump_process_on_match args);
      [rewrite (right_id_L ∅ (∪))|]; reflexivity.
  - cbn [for_each]. rewrite !bind_run, !emit_run, bind_run, emit_run, when_run.
    destruct (YaraProcessScanRequest.dump_process_on_match args) eqn:Hd.
    + rewrite modify_run, IH. simpl.
      rewrite <- (assoc_L (∪)). reflexivity.
    + rewrite IH. reflexivity.
Qed.

Lemma scan_response_run (args : YaraProcessScanRequest.t)
  (response : YaraProcessScanResponse.t) (s : gset Z) :
  (for_each (YaraProcessScanResponse.matches response) (fun match_ =>
     emit (SendReply (ScanMatch match_)) ;;
     emit (logging_debug (YaraProcessScan.debug_line match_)) ;;
     when (YaraProcessScanRequest.dump_process_on_match args)
          (modify (fun pids_to_dump =>
                     pids_to_dump ∪ {[ Process.pid (YaraProcessScanMatch.process match_) ]}))) ;;
   when (YaraProcessScanRequest.include_errors_in_results args)
        (for_each (YaraProcessScanResponse.errors response) (fun error =>
           emit (SendReply (ScanError error)))) ;;
   when (YaraProcessScanRequest.include_misses_in_results args)
        (for_each (YaraProcessScanResponse.misses response) (fun miss =>
           emit (SendReply (ScanMiss miss))))) s
  = (if YaraProcessScanRequest.dump_process_on_match args
     then s ∪ list_to_set
                (List.map (fun match_ => Process.pid (YaraProcessScanMatch.process match_))
                          (YaraProcessScanResponse.matches response))
     else s,
     scan_response_effects args response,
     Returned tt).
Proof.
  rewrite bind_run, scan_matches_run. unfold scan_response_effects.
  destruct (YaraProcessScanRequest.dump_process_on_match args),
    (YaraProcessScanRequest.include_errors_in_results args),
    (YaraProcessScanRequest.include_misses_in_results args);
    run_flow; rewrite ?app_nil_r; reflexivity.
Qed.

Lemma scan_responses_run (args : YaraProcessScanRequest.t)
  (items : list YaraProcessScanResponse.t) (s : gset Z) :
  for_each items (fun response =>
    for_each (YaraProcessScanResponse.matches response) (fun match_ =>
      emit (SendReply (ScanMatch match_)) ;;
      emit (logging_debug (YaraProcessScan.debug_line match_)) ;;
      when (YaraProcessScanRequest.dump_process_on_match args)
           (modify (fun pids_to_dump =>
                      pids_to_dump ∪ {[ Process.pid (YaraProcessScanMatch.process match_) ]}))) ;;
    when (YaraProcessScanRequest.include_errors_in_results args)
         (for_each (YaraProcessScanResponse.errors response) (fun error =>
            emit (SendReply (ScanError error)))) ;;
    when (YaraProcessScanRequest.include_misses_in_results args)
         (for_each (YaraProcessScanResponse.misses response) (fun miss =>
            emit (SendReply (ScanMiss miss))))) s
  = (if YaraProcessScanRequest.dump_process_on_match args
     then s ∪ list_to_set (matched_pids (Responses.mk true "" items))
     else s,
     flat_map (scan_response_effects args) items,
     Returned tt).
Proof.
  revert s. induction items as [|response items IH]; intros s.
  - simpl. rewrite ret_run. destruct (YaraProcessScanRequest.dump_process_on_match args);
      [rewrite (right_id_L ∅ (∪))|]; reflexivity.
  - cbn [for_each]. rewrite bind_run, scan_response_run, IH.
    unfold matched_pids. cbn [Responses.items flat_map].
    rewrite list_to_set_app_L.
    destruct (YaraProcessScanRequest.dump_process_on_match args);
      rewrite ?(assoc_L (∪)); reflexivity.
Qed.

Lemma scan_results_run (args : YaraProcessScanRequest.t)
  (responses : Responses.t YaraProcessScanResponse.t) (s : gset Z) :
  Responses.success responses = true →
  let pids_to_dump : gset Z :=
    if YaraProcessScanRequest.dump_process_on_match args
    then list_to_set (matched_pids responses) else ∅ in
  YaraProcessScan.ProcessScanResults args responses s
  = (pids_to_dump,
     flat_map (scan_response_effects args) (Responses.items responses)
       ++ (if bool_decide (pids_to_dump = ∅) then []
           else [CallFlow (DumpProcessMemory_flow
                             (YaraProcessScan.dump_args args (elements pids_to_dump)))
                          "CheckDumpProcessMemoryResults"]),
     Returned tt).
Proof.
  intros Hs. unfold YaraProcessScan.ProcessScanResults. rewrite Hs. cbn [negb].
  rewrite bind_run, modify_run, bind_run, scan_responses_run, bind_run, get_run, when_run.
  unfold matched_pids. cbn [Responses.items].
  destruct (YaraProcessScanRequest.dump_process_on_match args); cbv zeta.
  - rewrite (left_id_L ∅ (∪)).
    destruct (bool_decide _); cbn [negb]; rewrite ?emit_run; reflexivity.
  - rewrite bool_decide_eq_true_2 by reflexivity. reflexivity.
Qed.

Lemma scan_response_effects_spawn_nothing (args : YaraProcessScanRequest.t)
  (items : list YaraProcessScanResponse.t) :
  spawned (flat_map (scan_response_effects args) items) = [].
Proof.
  induction items as [|response items IH]; [reflexivity|].
  cbn [flat_map]. rewrite spawned_app, IH, app_nil_r.
  unfold scan_response_effects. rewrite !spawned_app.
  assert (H1 : spawned (flat_map (fun match_ => [SendReply (ScanMatch match_);
                 logging_debug (YaraProcessScan.debug_line match_)])
                 (YaraProcessScanResponse.matches response)) = []).
  { induction (YaraProcessScanResponse.matches response); [reflexivity|assumption]. }
  assert (H2 : ∀ {B} (g : B → RDFValue) (l : list B),
             spawned (List.map (fun x => SendReply (g x)) l) = []).
  { intros B g l. induction l; [reflexivity|assumption]. }
  rewrite H1.
  destruct (YaraProcessScanRequest.include_errors_in_results args),
    (YaraProcessScanRequest.include_misses_in_results args);
    rewrite ?H2; reflexivity.
Qed.

Lemma check_dump_results_run (sub : Responses.t RDFValue) (s : unit) :
  Responses.success sub = true →
  YaraProcessScan.CheckDumpProcessMemoryResults sub s
  = (s, List.map SendReply (Responses.items sub), Returned tt).
Proof.
  intros Hs. unfold YaraProcessScan.CheckDumpProcessMemoryResults.
  rewrite Hs. cbn [negb]. apply for_each_emit.
Qed.

(** C6: on a successful scan with [dump_process_on_match], the handler
    returns and calls at most one sub-flow. When no match is reported it
    calls none. Otherwise it calls [DumpProcessMemory] once, as its last
    effect, to come back in [CheckDumpProcessMemoryResults]: the [pids]
    it passes hold every pid of a match exactly once, and the five skip
    flags are those of the request. On a successful sub-flow,
    [CheckDumpProcessMemoryResults] replies with every response of the
    sub-flow, in order, and does nothing else. *)
Theorem scan_dumps_matching_pids (args : YaraProcessScanRequest.t)
  (responses : Responses.t YaraProcessScanResponse.t) (s : gset Z) :
  Responses.success responses = true →
  YaraProcessScanRequest.dump_process_on_match args = true →
  let run := YaraProcessScan.ProcessScanResults args responses s in
  result run = Returned tt
  ∧ (matched_pids responses = [] → spawned (effects run) = [])
  ∧ (matched_pids responses ≠ [] →
     ∃ dump_request before,
       spawned (effects run)
       = [(DumpProcessMemory_flow dump_request, "CheckDumpProcessMemoryResults")]
       ∧ effects run
         = before ++ [CallFlow (DumpProcessMemory_flow dump_request)
                               "CheckDumpProcessMemoryResults"]
       ∧ NoDup (YaraProcessDumpArgs.pids dump_request)
       ∧ (∀ p, p ∈ YaraProcessDumpArgs.pids dump_request ↔ p ∈ matched_pids responses)
       ∧ YaraProcessDumpArgs.skip_special_regions dump_request
         = YaraProcessScanRequest.skip_special_regions args
       ∧ YaraProcessDumpArgs.skip_mapped_files dump_request
         = YaraProcessScanRequest.skip_mapped_files args
       ∧ YaraProcessDumpArgs.skip_shared_regions dump_request
         = YaraProcessScanRequest.skip_shared_regions args
       ∧ YaraProcessDumpArgs.skip_executable_regions dump_request
         = YaraProcessScanRequest.skip_executable_regions args
       ∧ YaraProcessDumpArgs.skip_readonly_regions dump_request
         = YaraProcessScanRequest.skip_readonly_regions args)
  ∧ (∀ (sub : Responses.t RDFValue) (u : unit),
       Responses.success sub = true →
       YaraProcessScan.CheckDumpProcessMemoryResults sub u
       = (u, List.map SendReply (Responses.items sub), Returned tt)).
Proof.
  intros Hs Hd run. subst run. rewrite (scan_results_run args responses s Hs).
  rewrite Hd. cbv zeta. unfold effects, result. cbn [fst snd].
  split; [reflexivity|].
  rewrite spawned_app, scan_response_effects_spawn_nothing. cbn [app].
  split; [|split].
  - intros Hnil. rewrite Hnil. reflexivity.
  - intros Hne.
    rewrite bool_decide_eq_false_2.
    2:{ intros He. apply Hne. destruct (matched_pids responses) as [|p ps]; [reflexivity|].
        exfalso. apply (not_elem_of_empty (C := gset Z) p). rewrite <- He.
        apply elem_of_list_to_set. left. }
    eexists. eexists. split; [reflexivity|]. split; [reflexivity|].
    cbn. split; [apply NoDup_elements|].
    split; [|repeat split].
    intros p. rewrite elem_of_elements, elem_of_list_to_set. reflexivity.
  - intros sub u. apply check_dump_results_run.
Qed.

Lemma scan_dumps_matching_pids_witness :
  let args :=
    YaraProcessScanRequest.mk (YaraSignature.mk ["rule"]) "" true false false
                              true false true false true in
  let hit (p : Z) := YaraProcessScanMatch.mk (Process.mk p "svc" "/bin/svc") [] in
  let responses :=
    Responses.mk true "" [YaraProcessScanResponse.mk [hit 10%Z; hit 20%Z] [] [];
                          YaraProcessScanResponse.mk [hit 10%Z] [] []] in
  (Responses.success responses = true
   ∧ YaraProcessScanRequest.dump_process_on_match args = true
   ∧ matched_pids responses = [10; 20; 10]%Z)
  ∧ ∃ dump_request,
      spawned (effects (YaraProcessScan.ProcessScanResults args responses ∅))
      = [(DumpProcessMemory_flow dump_request, "CheckDumpProcessMemoryResults")]
      ∧ NoDup (YaraProcessDumpArgs.pids dump_request)
      ∧ (∀ p, p ∈ YaraProcessDumpArgs.pids dump_request ↔ p ∈ [10; 20; 10]%Z).
Proof.
  cbv zeta. split; [repeat split|].
  destruct (scan_dumps_matching_pids
              (YaraProcessScanRequest.mk (YaraSignature.mk ["rule"]) "" true false false
                                         true false true false true)
              (Responses.mk true ""
                 [YaraProcessScanResponse.mk
                    [YaraProcessScanMatch.mk (Process.mk 10 "svc" "/bin/svc") [];
                     YaraProcessScanMatch.mk (Process.mk 20 "svc" "/bin/svc") []] [] [];
                  YaraProcessScanResponse.mk
                    [YaraProcessScanMatch.mk (Process.mk 10 "svc" "/bin/svc") []] [] []])
              ∅ eq_refl eq_refl) as (_ & _ & H & _).
  destruct H as (dump_request & before & Hsp & _ & Hnd & Hin & _); [discriminate|].
  exists dump_request. split; [exact Hsp|]. split; [exact Hnd|exact Hin].
Defined.

(** ** [DumpProcessMemory.ProcessResults] *)

Lemma migrate_infos_silent (infos : list YaraProcessDumpInformation.t) :
  effects (for_each_obj migrate_info infos) = [].
Proof.
  induction infos as [|info infos IH]; [reflexivity|].
  simpl. rewrite migrate_info_run.
  destruct (regions_until_error _) as [rs [e|]]; [reflexivity|].
  destruct (for_each_obj migrate_info infos) as [[infos' es] o].
  unfold effects in *. simpl in *. exact IH.
Qed.

Lemma migrate_silent (response : YaraProcessDumpResponse.t) :
  effects (_MigrateLegacyDumpFilesToMemoryAreas response) = [].
Proof. rewrite migrate_run. apply migrate_infos_silent. Qed.

Lemma collect_regions_run (regions : list ProcessMemoryRegion.t)
  (s : DumpProcessMemory.vars) :
  for_each regions (fun region =>
    modify (fun s => DumpProcessMemory.mkvars (DumpProcessMemory.units s)
                       (DumpProcessMemory.dump_files_to_get s
                          ++ [ProcessMemoryRegion.file region]))) s
  = (DumpProcessMemory.mkvars (DumpProcessMemory.units s)
       (DumpProcessMemory.dump_files_to_get s
          ++ List.map ProcessMemoryRegion.file regions),
     [], Returned tt).
Proof.
  revert s. induction regions as [|r rs IH]; intros s.
  - simpl. rewrite ret_run, app_nil_r. destruct s; reflexivity.
  - cbn [for_each]. rewrite bind_run, modify_run, IH. simpl.
    rewrite <- app_assoc. reflexivity.
Qed.

Lemma collect_files_run (infos : list YaraProcessDumpInformation.t)
  (s : DumpProcessMemory.vars) :
  for_each infos (fun dumped_process =>
    emit (Log (DumpProcessMemory.getting_line dumped_process)) ;;
    for_each (YaraProcessDumpInformation.memory_regions dumped_process) (fun region =>
      modify (fun s => DumpProcessMemory.mkvars (DumpProcessMemory.units s)
                         (DumpProcessMemory.dump_files_to_get s
                            ++ [ProcessMemoryRegion.file region])))) s
  = (DumpProcessMemory.mkvars (DumpProcessMemory.units s)
       (DumpProcessMemory.dump_files_to_get s
          ++ flat_map (fun dumped_process =>
                         List.map ProcessMemoryRegion.file
                           (YaraProcessDumpInformation.memory_regions dumped_process))
                      infos),
     List.map (fun dumped_process => Log (DumpProcessMemory.getting_line dumped_process))
              infos,
     Returned tt).
Proof.
  revert s. induction infos as [|info infos IH]; intros s.
  - simpl. rewrite ret_run, app_nil_r. destruct s; reflexivity.
  - cbn [for_each]. rewrite !bind_run, emit_run, collect_regions_run.
    cbv beta iota. rewrite IH. simpl. rewrite <- app_assoc. reflexivity.
Qed.

(** [ProcessResults] on a successful batch with a first response: what
    it does is decided by how the migration of that response ends. *)
Lemma dump_results_run (status : string)
  (response : YaraProcessDumpResponse.t) (others : list YaraProcessDumpResponse.t) :
  DumpProcessMemory.ProcessResults (Responses.mk true status (response :: others))
  = match _MigrateLegacyDumpFilesToMemoryAreas response with
    | (migrated, _, Returned _) =>
        (DumpProcessMemory.mkvars (migrated :: others) (file_locators migrated),
         SendReply (DumpResponse migrated) :: dump_log_lines migrated
           ++ [fetch_or_stop (file_locators migrated)],
         Returned tt)
    | (partly, _, Raised e) =>
        (DumpProcessMemory.mkvars (partly :: others) [], [], Raised e)
    end.
Proof.
  unfold DumpProcessMemory.ProcessResults, DumpProcessMemory.ProcessResults_body.
  cbn [Responses.success Responses.status Responses.items negb].
  rewrite bind_run. unfold DumpProcessMemory.on_first at 1.
  cbn [DumpProcessMemory.units DumpProcessMemory.dump_files_to_get].
  pose proof (migrate_silent response) as Hsilent.
  destruct (_MigrateLegacyDumpFilesToMemoryAreas response) as [[migrated es] [[]|e]];
    unfold effects in Hsilent; simpl in Hsilent; subst es; [|reflexivity].
  rewrite bind_run. unfold DumpProcessMemory.on_first at 1.
  cbn [DumpProcessMemory.units DumpProcessMemory.dump_files_to_get].
  rewrite get_run. cbv beta iota.
  rewrite bind_run, emit_run, bind_run, for_each_emit. cbv beta iota.
  rewrite bind_run, modify_run. cbv beta iota.
  rewrite bind_run, collect_files_run. cbv beta iota.
  rewrite bind_run, get_run. cbv beta iota.
  cbn [DumpProcessMemory.units DumpProcessMemory.dump_files_to_get app].
  fold (file_locators migrated). unfold dump_log_lines, fetch_or_stop.
  destruct (file_locators migrated) as [|l ls]; rewrite emit_run; cbn [app];
    rewrite <- ?app_assoc; reflexivity.
Qed.

Lemma log_lines_spawn_nothing (response : YaraProcessDumpResponse.t) :
  spawned (dump_log_lines response) = [] ∧ dispatched (dump_log_lines response) = [].
Proof.
  unfold dump_log_lines. rewrite spawned_app, dispatched_app.
  assert (H : ∀ {B} (g : B → string) (l : list B),
            spawned (List.map (fun x => Log (g x)) l) = []
            ∧ dispatched (List.map (fun x => Log (g x)) l) = []).
  { intros B g l. induction l; [split; reflexivity|assumption]. }
  destruct (H _ DumpProcessMemory.error_line (YaraProcessDumpResponse.errors response))
    as [-> ->].
  destruct (H _ DumpProcessMemory.getting_line
              (YaraProcessDumpResponse.dumped_processes response)) as [-> ->].
  split; reflexivity.
Qed.

(** C7: on a successful dump response whose migration returns, the
    handler replies with the migrated response, writes its log lines,
    and then looks at the file locators of all memory regions of all
    processes, in order. With none, it logs that nothing was dumped and
    returns without calling a sub-flow. Otherwise it calls [MultiGetFile]
    once, for exactly these locators in this order, with a file size of
    2^30 bytes and without external stores, to come back in
    [DeleteFiles]. It calls nothing on the agent. *)
Theorem dump_results_fetch_files (responses : Responses.t YaraProcessDumpResponse.t)
  (response migrated : YaraProcessDumpResponse.t)
  (others : list YaraProcessDumpResponse.t) :
  Responses.success responses = true →
  Responses.items responses = response :: others →
  _MigrateLegacyDumpFilesToMemoryAreas response = (migrated, [], Returned tt) →
  let run := DumpProcessMemory.ProcessResults responses in
  let locators := file_locators migrated in
  result run = Returned tt
  ∧ effects run
    = SendReply (DumpResponse migrated) :: dump_log_lines migrated
        ++ [match locators with
            | [] => Log "No memory dumped, exiting."
            | _ :: _ => CallFlow (MultiGetFile_flow locators (2 ^ 30) false) "DeleteFiles"
            end]
  ∧ dispatched (effects run) = []
  ∧ (locators = [] → spawned (effects run) = [])
  ∧ (locators ≠ [] →
     spawned (effects run) = [(MultiGetFile_flow locators (2 ^ 30) false, "DeleteFiles")]).
Proof.
  intros Hs Hitems Hm run locators. subst run locators.
  destruct responses as [success status items]. simpl in Hs, Hitems. subst success items.
  rewrite dump_results_run, Hm. unfold result, effects. cbn [fst snd].
  change (1024 * 1024 * 1024)%Z with (2 ^ 30)%Z.
  destruct (log_lines_spawn_nothing migrated) as [Hsp Hdi].
  split; [reflexivity|].
  split.
  { unfold fetch_or_stop. destruct (file_locators migrated); reflexivity. }
  change (SendReply (DumpResponse migrated) :: dump_log_lines migrated
            ++ [fetch_or_stop (file_locators migrated)])
    with ([SendReply (DumpResponse migrated)] ++ dump_log_lines migrated
            ++ [fetch_or_stop (file_locators migrated)]).
  rewrite !spawned_app, !dispatched_app, Hsp, Hdi.
  unfold fetch_or_stop.
  destruct (file_locators migrated) as [|l ls].
  - repeat split; try reflexivity. intros H. congruence.
  - repeat split; try reflexivity. intros H. discriminate H.
Qed.

Lemma dump_results_fetch_files_witness :
  let region p := ProcessMemoryRegion.mk (mkPathSpec 0 p) 0 4096 in
  let response :=
    YaraProcessDumpResponse.mk
      [YaraProcessDumpInformation.mk (Process.mk 7 "a" "") []
         [region "/tmp/a_7_0_1000.tmp"; region "/tmp/a_7_2000_3000.tmp"];
       YaraProcessDumpInformation.mk (Process.mk 8 "b" "") [mkPathSpec 0 "b_8_10_20.tmp"] []]
      [] in
  let migrated :=
    YaraProcessDumpResponse.mk
      [YaraProcessDumpInformation.mk (Process.mk 7 "a" "") []
         [region "/tmp/a_7_0_1000.tmp"; region "/tmp/a_7_2000_3000.tmp"];
       YaraProcessDumpInformation.mk (Process.mk 8 "b" "") []
         [ProcessMemoryRegion.mk (mkPathSpec 0 "b_8_10_20.tmp") 16 16]]
      [] in
  let responses := Responses.mk true "" [response] in
  (Responses.success responses = true
   ∧ Responses.items responses = [response]
   ∧ _MigrateLegacyDumpFilesToMemoryAreas response = (migrated, [], Returned tt))
  ∧ spawned (effects (DumpProcessMemory.ProcessResults responses))
    = [(MultiGetFile_flow [mkPathSpec 0 "/tmp/a_7_0_1000.tmp";
                           mkPathSpec 0 "/tmp/a_7_2000_3000.tmp";
                           mkPathSpec 0 "b_8_10_20.tmp"] (2 ^ 30) false,
        "DeleteFiles")].
Proof.
  intros region response migrated responses.
  split; [repeat split|].
  refine (proj2 (proj2 (proj2 (proj2
            (dump_results_fetch_files responses response migrated []
               eq_refl eq_refl eq_refl)))) _).
  discriminate.
Defined.


(** ** The scenarios of the design on concrete inputs *)

(** Two matches and no [dump_process_on_match]: two replies, no sub-flow. *)
Example scenario_scan_without_dump :
  let args :=
    YaraProcessScanRequest.mk (YaraSignature.mk ["rule"]) "" false false false
                              false false false false false in
  let hit (p : Z) :=
    YaraProcessScanMatch.mk (Process.mk p "svc" "/bin/svc") [YaraMatch.mk "rule"] in
  let run :=
    YaraProcessScan.ProcessScanResults args
      (Responses.mk true "" [YaraProcessScanResponse.mk [hit 10%Z; hit 20%Z] [] []]) ∅ in
  effects run
  = [SendReply (ScanMatch (hit 10%Z));
     logging_debug "YaraScan match in pid 10 (/bin/svc) for rules rule.";
     SendReply (ScanMatch (hit 20%Z));
     logging_debug "YaraScan match in pid 20 (/bin/svc) for rules rule."]
  ∧ spawned (effects run) = []
  ∧ result run = Returned tt.
Proof. vm_compute. repeat split. Qed.

(** Nothing dumped: the response is replied, and the handler logs and
    returns without a sub-flow. *)
Example scenario_nothing_dumped :
  DumpProcessMemory.ProcessResults
    (Responses.mk true "" [YaraProcessDumpResponse.mk [] []])
  = (DumpProcessMemory.mkvars [YaraProcessDumpResponse.mk [] []] [],
     [SendReply (DumpResponse (YaraProcessDumpResponse.mk [] []));
      Log "No memory dumped, exiting."],
     Returned tt).
Proof. reflexivity. Qed.

(** A malformed legacy name ends [ProcessResults] before any reply. *)
Example scenario_malformed_legacy_name :
  let run :=
    DumpProcessMemory.ProcessResults
      (Responses.mk true "" [YaraProcessDumpResponse.mk [legacy_info ["proc_1234_zz_2000.tmp"]] []]) in
  effects run = [] ∧ result run = Raised (InvalidLiteral 16 "zz").
Proof. split; reflexivity. Qed.

(** Two fetched files: a reply and a deletion request for each. *)
Example scenario_delete_files :
  let f p := StatEntry.mk (mkPathSpec 0 p) 4096 in
  DumpProcessMemory.DeleteFiles (Responses.mk true "" [f "/tmp/a"; f "/tmp/b"]) tt
  = (tt,
     [SendReply (FetchedFile (f "/tmp/a"));
      CallClient (DeleteGRRTempFiles_action (mkPathSpec 0 "/tmp/a")) "LogDeleteFiles";
      SendReply (FetchedFile (f "/tmp/b"));
      CallClient (DeleteGRRTempFiles_action (mkPathSpec 0 "/tmp/b")) "LogDeleteFiles"],
     Returned tt).
Proof. reflexivity. Qed.

(** * Further properties *)

Example fmt_x_ex :
  fmt_x 0 = "0" ∧ fmt_x 6656 = "1a00" ∧ fmt_x 255 = "ff" ∧ fmt_x (-26) = "-1a"
  ∧ legacy_dump_file_name "my_proc" 1234 6656 8192 = "my_proc_1234_1a00_2000.tmp".
Proof. repeat split; reflexivity. Qed.

(** ** Hexadecimal numbers: what ["%x"] writes, [int(_, 16)] reads *)

Lemma hex_char_value (d : N) :
  (d < 16)%N → PyStr.digit_value (hex_char d) = Some (Z.of_N d).
Proof.
  intros Hd.
  destruct d as [|p]; [reflexivity|].
  repeat (destruct p as [p|p|]; try lia; try reflexivity).
Qed.

Lemma hex_digit_first (c : ascii) :
  is_hex_digit c = true →
  PyStr.is_space c = false
  ∧ (N_of_ascii c <? 128)%N = true
  ∧ Ascii.eqb c "_" = false
  ∧ Ascii.eqb c "x" = false
  ∧ Ascii.eqb c "X" = false
  ∧ (∀ s, PyStr.skip_sign (String c s) = (1%Z, String c s)).
Proof.
  destruct c as [[] [] [] [] [] [] [] []]; intros H;
    try discriminate H; repeat split.
Qed.

Lemma all_hex_ascii (s : string) :
  all_chars is_hex_digit s = true → PyStr.is_ascii s = true.
Proof.
  unfold PyStr.is_ascii. induction s as [|c s IH]; simpl; [reflexivity|].
  intros [Hc Hs]%andb_true_iff.
  destruct (hex_digit_first c Hc) as (_ & -> & _). simpl. exact (IH Hs).
Qed.

Lemma skip_prefix_hex (s : string) :
  all_chars is_hex_digit s = true → PyStr.skip_prefix s = s.
Proof.
  destruct s as [|c [|x s]]; simpl; [reflexivity| |].
  - intros _. destruct c as [[] [] [] [] [] [] [] []]; reflexivity.
  - intros [_ [Hx _]%andb_true_iff]%andb_true_iff.
    destruct (hex_digit_first x Hx) as (_ & _ & _ & Ex & EX & _).
    destruct c as [[] [] [] [] [] [] [] []]; try reflexivity.
    rewrite Ex, EX. reflexivity.
Qed.

Lemma scan_hex_digits (s : string) (acc : Z) (k : nat) :
  all_chars is_hex_digit s = true →
  PyStr.scan_digits false acc k s
  = Some (horner16 acc s, (k + String.length s)%nat, EmptyString).
Proof.
  revert acc k. induction s as [|c s IH]; intros acc k; simpl.
  - intros _. rewrite Nat.add_0_r. reflexivity.
  - intros [Hc Hs]%andb_true_iff.
    destruct (hex_digit_first c Hc) as (_ & _ & -> & _).
    unfold is_hex_digit in Hc.
    destruct (PyStr.digit_value c) as [d|]; [|discriminate].
    rewrite (IH _ _ Hs). simpl. rewrite Nat.add_succ_r. reflexivity.
Qed.

(** [int(_, 16)] reads every non-empty string of hexadecimal digits, as
    its value. *)
Lemma int16_hex_digits (s : string) :
  all_chars is_hex_digit s = true → s ≠ EmptyString →
  PyStr.int16 s = Some (horner16 0 s).
Proof.
  intros Hs Hne. destruct s as [|c s]; [congruence|].
  pose proof Hs as [Hc _]%andb_true_iff.
  destruct (hex_digit_first c Hc) as (Hsp & _ & Hu & _ & _ & Hsign).
  unfold PyStr.int16, PyStr.to_ascii_digits.
  rewrite (all_hex_ascii _ Hs).
  assert (El : PyStr.lstrip (String c s) = String c s) by (simpl; rewrite Hsp; reflexivity).
  rewrite El, Hsign, (skip_prefix_hex _ Hs), (scan_hex_digits _ _ _ Hs).
  assert (Ec : ∀ (X : Type) (a b : X),
             match String c s with String "_" _ => a | _ => b end = b).
  { intros X a b. destruct c as [[] [] [] [] [] [] [] []]; try reflexivity.
    discriminate Hu. }
  rewrite Ec. simpl. f_equal. lia.
Qed.

Lemma hex_digits_all_hex (fuel : nat) (n : N) (acc : string) :
  all_chars is_hex_digit acc = true →
  all_chars is_hex_digit (hex_digits fuel n acc) = true.
Proof.
  revert n acc. induction fuel as [|fuel IH]; intros n acc Hacc; simpl; [exact Hacc|].
  assert (Hc : all_chars is_hex_digit (String (hex_char (n mod 16)) acc) = true).
  { simpl. rewrite Hacc. unfold is_hex_digit.
    rewrite hex_char_value by (apply N.mod_lt; discriminate). reflexivity. }
  destruct (n / 16 =? 0)%N; [exact Hc|apply IH, Hc].
Qed.

Lemma hex_digits_not_empty (fuel : nat) (n : N) (acc : string) :
  hex_digits (S fuel) n acc ≠ EmptyString.
Proof.
  assert (H : ∀ f m a, a ≠ EmptyString → hex_digits f m a ≠ EmptyString).
  { induction f as [|f IH]; intros m a Ha; simpl; [exact Ha|].
    destruct (m / 16 =? 0)%N; [discriminate|apply IH; discriminate]. }
  simpl. destruct (n / 16 =? 0)%N; [discriminate|apply H; discriminate].
Qed.

Lemma hex_digits_value (fuel : nat) (n : N) (acc : string) :
  (n < 16 ^ N.of_nat fuel)%N →
  horner16 0 (hex_digits fuel n acc) = horner16 (Z.of_N n) acc.
Proof.
  revert n acc. induction fuel as [|fuel IH]; intros n acc Hn.
  - simpl in *. assert (n = 0%N) as -> by lia. reflexivity.
  - cbn [hex_digits]. cbv zeta.
    assert (Hstep : horner16 (Z.of_N (n / 16)) (String (hex_char (n mod 16)) acc)
                    = horner16 (Z.of_N n) acc).
    { cbn [horner16]. rewrite hex_char_value by (apply N.mod_lt; discriminate).
      cbn [default from_option]. unfold id. f_equal.
      pose proof (N.div_mod n 16 ltac:(discriminate)) as Hdm. lia. }
    destruct (n / 16 =? 0)%N eqn:E.
    + apply N.eqb_eq in E. rewrite E in Hstep. exact Hstep.
    + rewrite IH; [exact Hstep|].
      apply N.Div0.div_lt_upper_bound.
      rewrite Nat2N.inj_succ, N.pow_succ_r' in Hn. exact Hn.
Qed.

Lemma log2_fuel (n : N) : (n < 16 ^ N.of_nat (S (N.to_nat (N.log2 n))))%N.
Proof.
  rewrite Nat2N.inj_succ, N2Nat.id.
  destruct n as [|p]; [reflexivity|].
  pose proof (N.log2_spec (Npos p) eq_refl) as [_ Hlt].
  eapply N.lt_le_trans; [exact Hlt|].
  apply N.pow_le_mono_l. lia.
Qed.

(** Reading back what ["%x"] writes for a number that is not negative. *)
Lemma int16_fmt_x (n : Z) : (0 ≤ n)%Z → PyStr.int16 (fmt_x n) = Some n.
Proof.
  intros Hn.
  assert (E : fmt_x n = hex_digits (S (N.to_nat (N.log2 (Z.to_N n)))) (Z.to_N n) "").
  { destruct n; [reflexivity|reflexivity|lia]. }
  rewrite E, int16_hex_digits.
  - rewrite hex_digits_value by apply log2_fuel. simpl. f_equal. lia.
  - apply hex_digits_all_hex. reflexivity.
  - apply hex_digits_not_empty.
Qed.

Lemma hex_digit_not (c sep : ascii) :
  is_hex_digit sep = false → is_hex_digit c = true → Ascii.eqb c sep = false.
Proof.
  intros Hsep Hc. destruct (Ascii.eqb_spec c sep) as [->|]; [congruence|reflexivity].
Qed.

Lemma all_hex_contains (sep : ascii) (s : string) :
  is_hex_digit sep = false → all_chars is_hex_digit s = true →
  PyStr.contains sep s = false.
Proof.
  intros Hsep. induction s as [|c s IH]; simpl; [reflexivity|].
  intros [Hc Hs]%andb_true_iff. rewrite (hex_digit_not c sep Hsep Hc). exact (IH Hs).
Qed.

Lemma fmt_x_no_underscore (n : Z) : (0 ≤ n)%Z → PyStr.contains "_" (fmt_x n) = false.
Proof.
  intros Hn. apply all_hex_contains; [reflexivity|].
  destruct n; [| |lia]; apply hex_digits_all_hex; reflexivity.
Qed.

(** ** The names of legacy dump files *)

Lemma pretty_N_char_no_underscore (x : N) : Ascii.eqb (pretty_N_char x) "_" = false.
Proof.
  unfold pretty_N_char. destruct x as [|p]; [reflexivity|].
  destruct p as [p|p|]; try reflexivity;
    destruct p as [p|p|]; try reflexivity;
    destruct p as [p|p|]; try reflexivity;
    destruct p as [p|p|]; reflexivity.
Qed.

Lemma pretty_N_go_no_underscore (x : N) (s : string) :
  PyStr.contains "_" s = false → PyStr.contains "_" (pretty_N_go x s) = false.
Proof.
  revert s. induction (N.lt_wf_0 x) as [x _ IH]; intros s Hs.
  destruct (decide (x = 0%N)) as [->|Hx].
  - rewrite pretty_N_go_0. exact Hs.
  - rewrite pretty_N_go_step by lia. apply IH.
    + apply N.div_lt; lia.
    + simpl. rewrite pretty_N_char_no_underscore. exact Hs.
Qed.

(** ["%d" % n] has no underscore. *)
Lemma fmt_d_no_underscore (n : Z) : PyStr.contains "_" (fmt_d n) = false.
Proof.
  assert (H : ∀ x : N, PyStr.contains "_" (pretty x) = false).
  { intros x. unfold pretty, pretty_N. case_decide; [reflexivity|].
    apply pretty_N_go_no_underscore. reflexivity. }
  unfold fmt_d, pretty, pretty_Z. destruct n as [|p|p]; [reflexivity|apply (H (Npos p))|].
  rewrite append_char. simpl. apply (H (Npos p)).
Qed.

Lemma append_assoc_sep (a b : string) (c : ascii) (t : string) :
  a +:+ String c "" +:+ b +:+ t = (a +:+ String c b) +:+ t.
Proof. rewrite append_char, append_assoc, append_cons. reflexivity. Qed.

Lemma legacy_name_parts (name : string) (pid start end_ : Z) :
  (0 ≤ start)%Z → (0 ≤ end_)%Z →
  let stem := name +:+ "_" +:+ fmt_d pid +:+ "_" +:+ fmt_x start +:+ "_" +:+ fmt_x end_ in
  PyStr.rsplit "." 1 (legacy_dump_file_name name pid start end_) = [stem; "tmp"]
  ∧ PyStr.rsplit "_" 3 stem = [name; fmt_d pid; fmt_x start; fmt_x end_].
Proof.
  intros Hs He stem. split.
  - apply extension_split. split; [|reflexivity].
    unfold legacy_dump_file_name, stem. rewrite !append_assoc. reflexivity.
  - rewrite (rsplit_intro "_" 3 stem (PyStr.split "_" name)
               [fmt_d pid; fmt_x start; fmt_x end_]).
    + rewrite join_split_id. reflexivity.
    + unfold stem. rewrite !append_char, !split_app_sep.
      rewrite (split_no_sep "_" (fmt_d pid)) by apply fmt_d_no_underscore.
      rewrite (split_no_sep "_" (fmt_x start)) by (apply fmt_x_no_underscore, Hs).
      rewrite (split_no_sep "_" (fmt_x end_)) by (apply fmt_x_no_underscore, He).
      reflexivity.
    + apply split_not_nil.
    + reflexivity.
Qed.

(** X1: the migration reads back what the legacy format wrote. For a raw
    path whose file name is ["%s_%d_%x_%x.tmp" % (name, pid, start, end)]
    with start and end not negative, whatever the process name is
    (underscores and dots included), the body of the inner loop appends
    the region with that start and with end minus start as size. *)
Theorem legacy_name_round_trip (f : PathSpec) (name : string) (pid start end_ : Z)
  (info : YaraProcessDumpInformation.t) :
  (0 ≤ start)%Z → (0 ≤ end_)%Z →
  Basename f = legacy_dump_file_name name pid start end_ →
  migrate_dump_file f info
  = (Append_memory_region
       (ProcessMemoryRegion.mk (_CanonicalizeLegacyWindowsPathSpec f) start (end_ - start)%Z)
       info,
     [], Returned tt).
Proof.
  intros Hs He Hb. rewrite migrate_dump_file_run. unfold dump_file_region.
  destruct (legacy_name_parts name pid start end_ Hs He) as [Hext Hoff].
  rewrite Hb, Hext, Hoff, (int16_fmt_x _ Hs), (int16_fmt_x _ He). reflexivity.
Qed.

Lemma legacy_name_round_trip_witness :
  let f := mkPathSpec 0 "/var/tmp/my.proc_x_1234_1a00_2000.tmp" in
  let info := legacy_info [] in
  ((0 ≤ 0x1a00)%Z ∧ (0 ≤ 0x2000)%Z
   ∧ Basename f = legacy_dump_file_name "my.proc_x" 1234 0x1a00 0x2000)
  ∧ migrate_dump_file f info
    = (Append_memory_region
         (ProcessMemoryRegion.mk (_CanonicalizeLegacyWindowsPathSpec f) 0x1a00 0x600) info,
       [], Returned tt).
Proof.
  cbv zeta. split; [repeat split; try lia; reflexivity|].
  apply (legacy_name_round_trip
           (mkPathSpec 0 "/var/tmp/my.proc_x_1234_1a00_2000.tmp")
           "my.proc_x" 1234 0x1a00 0x2000 (legacy_info [])); [lia|lia|reflexivity].
Defined.

(** ** What the migration keeps *)

Lemma kept_info_refl (infos : list YaraProcessDumpInformation.t) :
  Forall2 kept_info infos infos.
Proof.
  induction infos; constructor; [|assumption].
  split; [reflexivity|]. split; [reflexivity|left; reflexivity].
Qed.

Lemma migrate_infos_keep (infos : list YaraProcessDumpInformation.t) :
  Forall2 kept_info infos (final (for_each_obj migrate_info infos)).
Proof.
  induction infos as [|info infos IH]; [constructor|].
  simpl. rewrite migrate_info_run.
  destruct (regions_until_error _) as [rs [e|]].
  - unfold final. simpl. constructor; [|apply kept_info_refl].
    split; [reflexivity|]. split; [apply prefix_app_r; reflexivity|left; reflexivity].
  - destruct (for_each_obj migrate_info infos) as [[infos' es] o].
    unfold final in *. simpl in *. constructor; [|exact IH].
    split; [reflexivity|]. split; [apply prefix_app_r; reflexivity|right; reflexivity].
Qed.

(** X2: however the migration ends, it is silent and it loses nothing:
    the errors of the response are as before, the processes are the same
    in number and order with the same process descriptors, each keeps the
    regions it had at the front of its regions, and its [dump_files] are
    either as before or cleared. *)
Theorem migrate_keeps_what_was_there (response : YaraProcessDumpResponse.t) :
  let after := final (_MigrateLegacyDumpFilesToMemoryAreas response) in
  effects (_MigrateLegacyDumpFilesToMemoryAreas response) = []
  ∧ YaraProcessDumpResponse.errors after = YaraProcessDumpResponse.errors response
  ∧ Forall2 kept_info (YaraProcessDumpResponse.dumped_processes response)
                      (YaraProcessDumpResponse.dumped_processes after).
Proof.
  cbv zeta. split; [apply migrate_silent|].
  rewrite migrate_run. unfold final at 1 3. cbn [fst].
  split; [reflexivity|apply migrate_infos_keep].
Qed.

Lemma migrate_infos_noop (infos : list YaraProcessDumpInformation.t) :
  Forall (fun info => YaraProcessDumpInformation.dump_files info = []) infos →
  for_each_obj migrate_info infos = (infos, [], Returned tt).
Proof.
  induction 1 as [|info infos Hinfo _ IH]; [reflexivity|].
  simpl. rewrite migrate_info_run, Hinfo, IH. simpl. rewrite app_nil_r.
  destruct info; simpl in *; subst; reflexivity.
Qed.

Lemma migrate_infos_returned_clears (infos infos' : list YaraProcessDumpInformation.t)
  (es : list effect) :
  for_each_obj migrate_info infos = (infos', es, Returned tt) →
  Forall (fun info => YaraProcessDumpInformation.dump_files info = []) infos'.
Proof.
  revert infos' es. induction infos as [|info infos IH]; intros infos' es; simpl.
  - intros [= <- _]. constructor.
  - rewrite migrate_info_run.
    destruct (regions_until_error _) as [rs [e|]]; [discriminate|].
    destruct (for_each_obj migrate_info infos) as [[infos1 es1] [[]|e]]; [|discriminate].
    intros [= <- _]. constructor; [reflexivity|]. apply (IH infos1 es1). reflexivity.
Qed.

(** X3: a response in the current schema, with no [dump_files] in any
    process, goes through the migration unchanged; and a response that
    was migrated goes through a second migration unchanged. *)
Theorem migrate_current_schema_unchanged :
  (∀ response,
     Forall (fun info => YaraProcessDumpInformation.dump_files info = [])
            (YaraProcessDumpResponse.dumped_processes response) →
     _MigrateLegacyDumpFilesToMemoryAreas response = (response, [], Returned tt))
  ∧ (∀ response migrated es,
       _MigrateLegacyDumpFilesToMemoryAreas response = (migrated, es, Returned tt) →
       _MigrateLegacyDumpFilesToMemoryAreas migrated = (migrated, [], Returned tt)).
Proof.
  assert (H1 : ∀ response,
     Forall (fun info => YaraProcessDumpInformation.dump_files info = [])
            (YaraProcessDumpResponse.dumped_processes response) →
     _MigrateLegacyDumpFilesToMemoryAreas response = (response, [], Returned tt)).
  { intros response H. rewrite migrate_run, (migrate_infos_noop _ H).
    destruct response; reflexivity. }
  split; [exact H1|].
  intros response migrated es Hm. apply H1.
  rewrite migrate_run in Hm.
  destruct (for_each_obj migrate_info (YaraProcessDumpResponse.dumped_processes response))
    as [[infos' es'] o] eqn:E.
  unfold final, effects, result in Hm. simpl in Hm. injection Hm as <- _ ->.
  simpl. exact (migrate_infos_returned_clears _ _ _ E).
Qed.

Lemma migrate_current_schema_unchanged_witness :
  let legacy := YaraProcessDumpResponse.mk [legacy_info ["a_1_10_20.tmp"]] [] in
  let migrated :=
    YaraProcessDumpResponse.mk
      [YaraProcessDumpInformation.mk (Process.mk 1234 "proc" "") []
         [ProcessMemoryRegion.mk (mkPathSpec 0 "a_1_10_20.tmp") 16 16]] [] in
  _MigrateLegacyDumpFilesToMemoryAreas legacy = (migrated, [], Returned tt)
  ∧ _MigrateLegacyDumpFilesToMemoryAreas migrated = (migrated, [], Returned tt).
Proof.
  cbv zeta. split; [reflexivity|].
  exact (proj2 migrate_current_schema_unchanged
           (YaraProcessDumpResponse.mk [legacy_info ["a_1_10_20.tmp"]] []) _ [] eq_refl).
Defined.

(** ** The canonical form of a path *)

Lemma replace_char_removes (a b : ascii) (s : string) :
  a ≠ b → PyStr.contains a (replace_char a b s) = false.
Proof.
  intros Hab. induction s as [|c s IH]; simpl; [reflexivity|].
  rewrite IH. destruct (Ascii.eqb_spec c a) as [->|Hca].
  - destruct (Ascii.eqb_spec b a); congruence.
  - destruct (Ascii.eqb_spec c a); congruence.
Qed.

(** X4: the result of the canonicalization is never a path that the
    function would rewrite; and a path that was rewritten has no
    backslash left and is one character longer than the input. *)
Theorem canonical_form_is_final (ps : PathSpec) :
  let out := _CanonicalizeLegacyWindowsPathSpec ps in
  looks_like_legacy_windows (path out) = false
  ∧ (path out ≠ path ps →
     PyStr.contains "\" (path out) = false
     ∧ String.length (path out) = S (String.length (path ps))).
Proof.
  cbv zeta. destruct (looks_like_legacy_windows (path ps)) eqn:Hb.
  - rewrite (canonicalize_taken ps Hb). simpl.
    split; [apply slash_not_legacy; reflexivity|].
    intros _. split.
    + apply replace_char_removes. discriminate.
    + rewrite replace_char_length. reflexivity.
  - rewrite (canonicalize_not_taken ps Hb). split; [exact Hb|]. congruence.
Qed.

(** ** More on [YaraProcessScan] *)

Lemma replies_app (es1 es2 : list effect) :
  replies (es1 ++ es2) = replies es1 ++ replies es2.
Proof. apply omap_app. Qed.

Lemma replies_of_replies {B} (g : B → RDFValue) (l : list B) :
  replies (List.map (fun x => SendReply (g x)) l) = List.map g l.
Proof. induction l as [|x l IH]; [reflexivity|]. simpl. rewrite <- IH. reflexivity. Qed.

Lemma scan_response_effects_replies (args : YaraProcessScanRequest.t)
  (response : YaraProcessScanResponse.t) :
  replies (scan_response_effects args response) = scan_response_replies args response.
Proof.
  unfold scan_response_effects, scan_response_replies. rewrite !replies_app.
  f_equal; [|f_equal].
  - induction (YaraProcessScanResponse.matches response) as [|m ms IH]; [reflexivity|].
    simpl. rewrite <- IH. reflexivity.
  - destruct (YaraProcessScanRequest.include_errors_in_results args);
      [apply (replies_of_replies ScanError)|reflexivity].
  - destruct (YaraProcessScanRequest.include_misses_in_results args);
      [apply (replies_of_replies ScanMiss)|reflexivity].
Qed.

(** X5: what a successful scan replies, and in which order: response by
    response as delivered, for each response its matches, then its errors
    if the request asks for them, then its misses if the request asks for
    them; nothing else is replied, errors and misses never without their
    flag. It does not depend on [dump_process_on_match]. *)
Theorem scan_replies_in_order (args : YaraProcessScanRequest.t)
  (responses : Responses.t YaraProcessScanResponse.t) (s : gset Z) :
  Responses.success responses = true →
  replies (effects (YaraProcessScan.ProcessScanResults args responses s))
  = flat_map (scan_response_replies args) (Responses.items responses).
Proof.
  intros Hs. rewrite (scan_results_run args responses s Hs). unfold effects. cbn [fst snd].
  rewrite replies_app.
  assert (Hlast : ∀ (b : bool) e, replies (if b then [] else [CallFlow e "CheckDumpProcessMemoryResults"]) = []).
  { intros [] e; reflexivity. }
  rewrite Hlast, app_nil_r.
  induction (Responses.items responses) as [|response items IH]; [reflexivity|].
  cbn [flat_map]. rewrite replies_app, scan_response_effects_replies, IH. reflexivity.
Qed.

Lemma scan_replies_in_order_witness :
  let args :=
    YaraProcessScanRequest.mk (YaraSignature.mk ["rule"]) "" false true false
                              false false false false false in
  let hit := YaraProcessScanMatch.mk (Process.mk 10 "svc" "/bin/svc") [] in
  let err := ProcessMemoryError.mk (Process.mk 11 "x" "") "denied" in
  let miss := YaraProcessScanMiss.mk (Process.mk 12 "y" "") in
  let responses := Responses.mk true "" [YaraProcessScanResponse.mk [hit] [err] [miss]] in
  Responses.success responses = true
  ∧ replies (effects (YaraProcessScan.ProcessScanResults args responses ∅))
    = [ScanMatch hit; ScanError err].
Proof.
  cbv zeta. split; [reflexivity|].
  exact (scan_replies_in_order
           (YaraProcessScanRequest.mk (YaraSignature.mk ["rule"]) "" false true false
                                      false false false false false)
           (Responses.mk true ""
              [YaraProcessScanResponse.mk
                 [YaraProcessScanMatch.mk (Process.mk 10 "svc" "/bin/svc") []]
                 [ProcessMemoryError.mk (Process.mk 11 "x" "") "denied"]
                 [YaraProcessScanMiss.mk (Process.mk 12 "y" "")]])
           ∅ eq_refl).
Defined.

(** X6: without [dump_process_on_match] a successful scan never calls a
    sub-flow and never calls the agent, whatever matched. *)
Theorem scan_without_dump_spawns_nothing (args : YaraProcessScanRequest.t)
  (responses : Responses.t YaraProcessScanResponse.t) (s : gset Z) :
  Responses.success responses = true →
  YaraProcessScanRequest.dump_process_on_match args = false →
  let run := YaraProcessScan.ProcessScanResults args responses s in
  result run = Returned tt
  ∧ spawned (effects run) = []
  ∧ dispatched (effects run) = [].
Proof.
  intros Hs Hd run. subst run. rewrite (scan_results_run args responses s Hs), Hd.
  cbv zeta. rewrite bool_decide_eq_true_2 by reflexivity.
  unfold result, effects. cbn [fst snd]. rewrite app_nil_r.
  split; [reflexivity|]. split; [apply scan_response_effects_spawn_nothing|].
  induction (Responses.items responses) as [|response items IH]; [reflexivity|].
  cbn [flat_map]. rewrite dispatched_app, IH, app_nil_r.
  unfold scan_response_effects. rewrite !dispatched_app.
  assert (H1 : dispatched (flat_map (fun match_ => [SendReply (ScanMatch match_);
                 logging_debug (YaraProcessScan.debug_line match_)])
                 (YaraProcessScanResponse.matches response)) = []).
  { induction (YaraProcessScanResponse.matches response); [reflexivity|assumption]. }
  assert (H2 : ∀ {B} (g : B → RDFValue) (l : list B),
             dispatched (List.map (fun x => SendReply (g x)) l) = []).
  { intros B g l. induction l; [reflexivity|assumption]. }
  rewrite H1.
  destruct (YaraProcessScanRequest.include_errors_in_results args),
    (YaraProcessScanRequest.include_misses_in_results args);
    rewrite ?H2; reflexivity.
Qed.

Lemma scan_without_dump_spawns_nothing_witness :
  let args :=
    YaraProcessScanRequest.mk (YaraSignature.mk ["rule"]) "" false true true
                              false false false false false in
  let hit := YaraProcessScanMatch.mk (Process.mk 10 "svc" "/bin/svc") [] in
  let responses := Responses.mk true "" [YaraProcessScanResponse.mk [hit; hit] [] []] in
  (Responses.success responses = true
   ∧ YaraProcessScanRequest.dump_process_on_match args = false)
  ∧ spawned (effects (YaraProcessScan.ProcessScanResults args responses ∅)) = [].
Proof.
  cbv zeta. split; [split; reflexivity|].
  exact (proj1 (proj2 (scan_without_dump_spawns_nothing
           (YaraProcessScanRequest.mk (YaraSignature.mk ["rule"]) "" false true true
                                      false false false false false)
           (Responses.mk true ""
              [YaraProcessScanResponse.mk
                 [YaraProcessScanMatch.mk (Process.mk 10 "svc" "/bin/svc") [];
                  YaraProcessScanMatch.mk (Process.mk 10 "svc" "/bin/svc") []] [] []])
           ∅ eq_refl eq_refl))).
Defined.

(** ** Failed batches *)

(** X7: every state method that receives responses looks at their
    success first. On a failed batch it raises [FlowError] with the
    status and has had no effect: nothing is replied, logged or called,
    and [ProcessResults] has not touched the response objects. *)
Theorem failed_batch_raises_at_once (status : string) :
  (∀ args items s,
     YaraProcessScan.ProcessScanResults args (Responses.mk false status items) s
     = (s, [], Raised (FlowError status)))
  ∧ (∀ items u,
       YaraProcessScan.CheckDumpProcessMemoryResults (Responses.mk false status items) u
       = (u, [], Raised (FlowError status)))
  ∧ (∀ items,
       DumpProcessMemory.ProcessResults (Responses.mk false status items)
       = (DumpProcessMemory.mkvars items [], [], Raised (FlowError status)))
  ∧ (∀ items u,
       DumpProcessMemory.DeleteFiles (Responses.mk false status items) u
       = (u, [], Raised (FlowError status))).
Proof. repeat split. Qed.

(** ** More on the [Start] methods *)

(** Close the rows of a table of cases once the run is computed. *)
Ltac settle_table :=
  repeat split;
  try solve [ left; reflexivity | right; reflexivity | intros; reflexivity
            | intuition (congruence || discriminate) ].

(** X8: [YaraProcessScan.Start] calls the agent exactly when the
    signature has a rule and the process regex is empty or compiles; it
    then calls [YaraProcessScan] once, with the request as it is, to come
    back in [ProcessScanResults]. With a rule and a regex that does not
    compile it raises the error of [re.compile], and nothing was called. *)
Theorem scan_start_dispatches (re_compiles : string → bool)
  (args : YaraProcessScanRequest.t) (u : unit) :
  let run := YaraProcessScan.Start re_compiles args u in
  let regex := YaraProcessScanRequest.process_regex args in
  let has_rules :=
    YaraSignature.GetRules (YaraProcessScanRequest.yara_signature args) ≠ [] in
  (has_rules ∧ (regex = "" ∨ re_compiles regex = true)
   ↔ run = (u, [CallClient (YaraProcessScan_action args) "ProcessScanResults"], Returned tt))
  ∧ (has_rules ∧ regex ≠ "" ∧ re_compiles regex = false
     ↔ run = (u, [], Raised (re_error regex)))
  ∧ (dispatched (effects run) = []
     ∨ dispatched (effects run) = [(YaraProcessScan_action args, "ProcessScanResults")]).
Proof.
  cbv zeta. unfold YaraProcessScan.Start.
  destruct (YaraSignature.GetRules (YaraProcessScanRequest.yara_signature args))
    as [|rule rules]; [rewrite raise_run; settle_table|].
  rewrite bind_run, when_run.
  destruct (String.eqb_spec (YaraProcessScanRequest.process_regex args) "") as [E|E];
    cbn [negb].
  - rewrite emit_run. cbn [app]. settle_table.
  - unfold YaraProcessScan.re_compile.
    destruct (re_compiles (YaraProcessScanRequest.process_regex args)) eqn:Hre.
    + rewrite ret_run, emit_run. cbn [app]. settle_table.
    + rewrite raise_run. settle_table.
Qed.

(** X9: [DumpProcessMemory.Start] calls the agent exactly when the
    process regex is empty or compiles and the request names a process
    in one of the three ways; it then calls [YaraProcessDump] once, with
    the request as it is, to come back in [ProcessResults]. A regex that
    does not compile raises the error of [re.compile] before anything is
    called. *)
Theorem dump_start_dispatches (re_compiles : string → bool)
  (args : YaraProcessDumpArgs.t) (u : unit) :
  let run := DumpProcessMemory.Start re_compiles args u in
  let regex := YaraProcessDumpArgs.process_regex args in
  ((regex = "" ∨ re_compiles regex = true)
   ∧ (YaraProcessDumpArgs.dump_all_processes args = true
      ∨ YaraProcessDumpArgs.pids args ≠ []
      ∨ regex ≠ "")
   ↔ run = (u, [CallClient (YaraProcessDump_action args) "ProcessResults"], Returned tt))
  ∧ (regex ≠ "" ∧ re_compiles regex = false ↔ run = (u, [], Raised (re_error regex)))
  ∧ (dispatched (effects run) = []
     ∨ dispatched (effects run) = [(YaraProcessDump_action args, "ProcessResults")]).
Proof.
  cbv zeta. unfold DumpProcessMemory.Start. rewrite bind_run, when_run.
  destruct (String.eqb_spec (YaraProcessDumpArgs.process_regex args) "") as [E|E];
    cbn [negb].
  - destruct (YaraProcessDumpArgs.dump_all_processes args) eqn:Hall; cbn [orb negb].
    + rewrite emit_run. cbn [app]. settle_table.
    + destruct (decide (YaraProcessDumpArgs.pids args = [])) as [Hp|Hp].
      * rewrite bool_decide_eq_true_2 by exact Hp. cbn [orb negb]. rewrite raise_run.
        cbn [app]. settle_table.
      * rewrite bool_decide_eq_false_2 by exact Hp. cbn [orb negb]. rewrite emit_run.
        cbn [app]. settle_table.
  - unfold YaraProcessScan.re_compile.
    destruct (re_compiles (YaraProcessDumpArgs.process_regex args)) eqn:Hre.
    + rewrite ret_run. cbv beta iota. rewrite orb_true_r. cbn [negb].
      rewrite emit_run. cbn [app]. settle_table.
    + rewrite raise_run. settle_table.
Qed.

(** ** More on [DumpProcessMemory] *)

(** X10: a malformed legacy file name in the first response makes
    [ProcessResults] raise the [ValueError] of the migration before it
    has replied, logged or called anything: the response, migrated in
    part, is not sent. *)
Theorem dump_results_malformed_name (responses : Responses.t YaraProcessDumpResponse.t)
  (response : YaraProcessDumpResponse.t) (others : list YaraProcessDumpResponse.t) :
  Responses.success responses = true →
  Responses.items responses = response :: others →
  Exists (fun info => Exists (fun f => ¬ well_formed_dump_file f)
                             (YaraProcessDumpInformation.dump_files info))
         (YaraProcessDumpResponse.dumped_processes response) →
  let run := DumpProcessMemory.ProcessResults responses in
  effects run = []
  ∧ ∃ e, result run = Raised e ∧ is_ValueError e = true.
Proof.
  intros Hs Hitems Hbad run. subst run.
  destruct responses as [success status items]. simpl in Hs, Hitems. subst success items.
  rewrite dump_results_run, migrate_run.
  destruct (migrate_infos_interrupted _ Hbad)
    as (e & pre & info & post & good & bad & rest & pre' & regions
        & He & _ & _ & _ & _ & _ & ->).
  unfold final, effects, result. cbn [fst snd]. split; [reflexivity|].
  exists e. split; [reflexivity|exact He].
Qed.

Lemma dump_results_malformed_name_witness :
  let response := YaraProcessDumpResponse.mk [legacy_info ["a_1_10_20.tmp"; "oops.tmp"]] [] in
  let responses := Responses.mk true "" [response] in
  (Responses.success responses = true
   ∧ Responses.items responses = [response])
  ∧ effects (DumpProcessMemory.ProcessResults responses) = []
  ∧ ∃ e, result (DumpProcessMemory.ProcessResults responses) = Raised e
         ∧ is_ValueError e = true.
Proof.
  cbv zeta. split; [split; reflexivity|].
  apply (dump_results_malformed_name
           (Responses.mk true ""
              [YaraProcessDumpResponse.mk [legacy_info ["a_1_10_20.tmp"; "oops.tmp"]] []])
           (YaraProcessDumpResponse.mk [legacy_info ["a_1_10_20.tmp"; "oops.tmp"]] []) []
           eq_refl eq_refl).
  constructor. simpl. apply Exists_cons_tl, Exists_cons_hd.
  apply (raised_not_well_formed _ (UnpackError 4 1)). reflexivity.
Defined.

Lemma migrated_file_locators (infos infos' : list YaraProcessDumpInformation.t) :
  Forall2 migrated_info infos infos' →
  flat_map (fun dumped_process =>
              List.map ProcessMemoryRegion.file
                       (YaraProcessDumpInformation.memory_regions dumped_process)) infos'
  = flat_map (fun info =>
                List.map ProcessMemoryRegion.file
                         (YaraProcessDumpInformation.memory_regions info)
                ++ List.map _CanonicalizeLegacyWindowsPathSpec
                            (YaraProcessDumpInformation.dump_files info)) infos.
Proof.
  induction 1 as [|info info' infos infos' (_ & _ & regions & Hr & HF) _ IH];
    [reflexivity|].
  cbn [flat_map]. rewrite IH, Hr, List.map_app. f_equal. f_equal.
  clear Hr. induction HF as [|f r fs rs (start & end_ & _ & Hfile & _) _ IHF];
    [reflexivity|].
  simpl. rewrite Hfile, IHF. reflexivity.
Qed.

(** X11: for a first response whose legacy file names are all well
    formed, [ProcessResults] asks [MultiGetFile] for, process by process,
    the files of the regions the process had and then each of its raw
    paths in canonical form, once each and in order; with no region and
    no raw path at all it calls no sub-flow. *)
Theorem dump_results_fetch_legacy_files (responses : Responses.t YaraProcessDumpResponse.t)
  (response : YaraProcessDumpResponse.t) (others : list YaraProcessDumpResponse.t) :
  Responses.success responses = true →
  Responses.items responses = response :: others →
  Forall (fun info => Forall well_formed_dump_file
                             (YaraProcessDumpInformation.dump_files info))
         (YaraProcessDumpResponse.dumped_processes response) →
  let run := DumpProcessMemory.ProcessResults responses in
  result run = Returned tt
  ∧ DumpProcessMemory.dump_files_to_get (final run) = legacy_file_locators response
  ∧ spawned (effects run)
    = match legacy_file_locators response with
      | [] => []
      | _ :: _ => [(MultiGetFile_flow (legacy_file_locators response) (2 ^ 30) false,
                    "DeleteFiles")]
      end.
Proof.
  intros Hs Hitems Hwf run. subst run.
  destruct responses as [success status items]. simpl in Hs, Hitems. subst success items.
  rewrite dump_results_run, migrate_run.
  destruct (migrate_infos_complete _ Hwf) as (infos' & -> & HF).
  unfold final, effects, result. cbn [fst snd DumpProcessMemory.dump_files_to_get].
  assert (Hloc : file_locators
                   (YaraProcessDumpResponse.mk infos'
                      (YaraProcessDumpResponse.errors response))
                 = legacy_file_locators response).
  { unfold file_locators, legacy_file_locators. cbn [YaraProcessDumpResponse.dumped_processes].
    apply migrated_file_locators, HF. }
  rewrite Hloc. split; [reflexivity|]. split; [reflexivity|].
  change (SendReply ?a :: ?l ++ ?t) with ([SendReply a] ++ l ++ t).
  rewrite !spawned_app.
  destruct (log_lines_spawn_nothing
              (YaraProcessDumpResponse.mk infos' (YaraProcessDumpResponse.errors response)))
    as [-> _].
  unfold fetch_or_stop. destruct (legacy_file_locators response); reflexivity.
Qed.

Lemma returned_well_formed (f : PathSpec) (r : ProcessMemoryRegion.t) :
  dump_file_region f = Returned r → well_formed_dump_file f.
Proof.
  intros E. apply dump_file_region_Returned in E.
  destruct E as (start & end_ & Hwf & _). exists start, end_. exact Hwf.
Qed.

Lemma dump_results_fetch_legacy_files_witness :
  let response :=
    YaraProcessDumpResponse.mk
      [legacy_info ["C:\Temp\a_1_10_20.tmp"; "/tmp/b_2_0_ff.tmp"]] [] in
  let responses := Responses.mk true "" [response] in
  (Responses.success responses = true
   ∧ Responses.items responses = [response])
  ∧ DumpProcessMemory.dump_files_to_get (final (DumpProcessMemory.ProcessResults responses))
    = [mkPathSpec 0 "/C:/Temp/a_1_10_20.tmp"; mkPathSpec 0 "/tmp/b_2_0_ff.tmp"].
Proof.
  cbv zeta. split; [split; reflexivity|].
  refine (proj1 (proj2 (dump_results_fetch_legacy_files
           (Responses.mk true ""
              [YaraProcessDumpResponse.mk
                 [legacy_info ["C:\Temp\a_1_10_20.tmp"; "/tmp/b_2_0_ff.tmp"]] []])
           (YaraProcessDumpResponse.mk
              [legacy_info ["C:\Temp\a_1_10_20.tmp"; "/tmp/b_2_0_ff.tmp"]] []) []
           eq_refl eq_refl _))).
  repeat constructor; eapply returned_well_formed; reflexivity.
Defined.

Lemma delete_files_run (items : list StatEntry.t) (u : unit) :
  for_each items (fun response =>
    emit (SendReply (FetchedFile response)) ;;
    emit (CallClient (DeleteGRRTempFiles_action (StatEntry.pathspec response))
                     "LogDeleteFiles")) u
  = (u, flat_map delete_file_effects items, Returned tt).
Proof.
  induction items as [|response items IH]; [reflexivity|].
  cbn [for_each]. run_flow. rewrite IH. reflexivity.
Qed.

(** X12: on a successful fetch, [DeleteFiles] replies every fetched file
    and asks the agent to delete its path, file by file in the order
    delivered: as many replies and as many deletion requests as files,
    each request for the path of its file and to come back in
    [LogDeleteFiles]; it calls no sub-flow. *)
Theorem delete_files_one_request_per_file (responses : Responses.t StatEntry.t) (u : unit) :
  Responses.success responses = true →
  let run := DumpProcessMemory.DeleteFiles responses u in
  run = (u, flat_map delete_file_effects (Responses.items responses), Returned tt)
  ∧ replies (effects run) = List.map FetchedFile (Responses.items responses)
  ∧ dispatched (effects run)
    = List.map (fun response =>
                  (DeleteGRRTempFiles_action (StatEntry.pathspec response), "LogDeleteFiles"))
               (Responses.items responses)
  ∧ spawned (effects run) = [].
Proof.
  intros Hs run. subst run. unfold DumpProcessMemory.DeleteFiles.
  rewrite Hs. cbn [negb]. rewrite delete_files_run.
  unfold effects. cbn [fst snd]. split; [reflexivity|].
  induction (Responses.items responses) as [|response items (IH1 & IH2 & IH3)];
    [repeat split|].
  cbn [flat_map]. rewrite replies_app, dispatched_app, spawned_app, IH1, IH2, IH3.
  repeat split.
Qed.

Lemma delete_files_one_request_per_file_witness :
  let f p := StatEntry.mk (mkPathSpec 0 p) 4096 in
  let responses := Responses.mk true "" [f "/tmp/a"; f "/tmp/b"] in
  Responses.success responses = true
  ∧ dispatched (effects (DumpProcessMemory.DeleteFiles responses tt))
    = [(DeleteGRRTempFiles_action (mkPathSpec 0 "/tmp/a"), "LogDeleteFiles");
       (DeleteGRRTempFiles_action (mkPathSpec 0 "/tmp/b"), "LogDeleteFiles")].
Proof.
  cbv zeta. split; [reflexivity|].
  exact (proj1 (proj2 (proj2 (delete_files_one_request_per_file
           (Responses.mk true "" [StatEntry.mk (mkPathSpec 0 "/tmp/a") 4096;
                                  StatEntry.mk (mkPathSpec 0 "/tmp/b") 4096])
           tt eq_refl)))).
Defined.

(** X13: a response in the current schema is replied as it was
    delivered: with no [dump_files] in the first response,
    [ProcessResults] leaves the response objects as they are, replies the
    first one unchanged, and goes on with the files of its regions. *)
Theorem dump_results_current_schema (responses : Responses.t YaraProcessDumpResponse.t)
  (response : YaraProcessDumpResponse.t) (others : list YaraProcessDumpResponse.t) :
  Responses.success responses = true →
  Responses.items responses = response :: others →
  Forall (fun info => YaraProcessDumpInformation.dump_files info = [])
         (YaraProcessDumpResponse.dumped_processes response) →
  DumpProcessMemory.ProcessResults responses
  = (DumpProcessMemory.mkvars (response :: others) (file_locators response),
     SendReply (DumpResponse response) :: dump_log_lines response
       ++ [fetch_or_stop (file_locators response)],
     Returned tt).
Proof.
  intros Hs Hitems Hnone.
  destruct responses as [success status items]. simpl in Hs, Hitems. subst success items.
  rewrite dump_results_run, migrate_run, (migrate_infos_noop _ Hnone).
  unfold final, effects, result. cbn [fst snd]. destruct response; reflexivity.
Qed.

Lemma dump_results_current_schema_witness :
  let response :=
    YaraProcessDumpResponse.mk
      [YaraProcessDumpInformation.mk (Process.mk 7 "a" "") []
         [ProcessMemoryRegion.mk (mkPathSpec 0 "/tmp/a_7_0_1000.tmp") 0 4096]]
      [ProcessMemoryError.mk (Process.mk 8 "b" "") "denied"] in
  let responses := Responses.mk true "" [response] in
  (Responses.success responses = true ∧ Responses.items responses = [response])
  ∧ DumpProcessMemory.ProcessResults responses
    = (DumpProcessMemory.mkvars [response] [mkPathSpec 0 "/tmp/a_7_0_1000.tmp"],
       [SendReply (DumpResponse response);
        Log "Error dumping process b (pid 8): denied";
        Log "Getting 1 dump files for process a (pid 7).";
        CallFlow (MultiGetFile_flow [mkPathSpec 0 "/tmp/a_7_0_1000.tmp"]
                                    (1024 * 1024 * 1024) false) "DeleteFiles"],
       Returned tt).
Proof.
  cbv zeta. split; [split; reflexivity|].
  refine (dump_results_current_schema (Responses.mk true "" [_]) _ [] eq_refl eq_refl _).
  repeat constructor.
Defined.

(** ** The two flows together *)

(** X14: the sub-flow a scan calls is one [DumpProcessMemory.Start]
    accepts. Whatever request [ProcessScanResults] passes to
    [DumpProcessMemory] names at least one pid and no regex, so [Start]
    raises neither error and calls [YaraProcessDump] on the agent once,
    with that request. *)
Theorem spawned_dump_request_starts (re_compiles : string → bool)
  (args : YaraProcessScanRequest.t)
  (responses : Responses.t YaraProcessScanResponse.t) (s : gset Z)
  (dump_request : YaraProcessDumpArgs.t) (next_state : string) :
  Responses.success responses = true →
  (DumpProcessMemory_flow dump_request, next_state)
    ∈ spawned (effects (YaraProcessScan.ProcessScanResults args responses s)) →
  next_state = "CheckDumpProcessMemoryResults"
  ∧ YaraProcessDumpArgs.pids dump_request ≠ []
  ∧ DumpProcessMemory.Start re_compiles dump_request tt
    = (tt, [CallClient (YaraProcessDump_action dump_request) "ProcessResults"], Returned tt).
Proof.
  intros Hs. rewrite (scan_results_run args responses s Hs). cbv zeta.
  unfold effects. cbn [fst snd].
  rewrite spawned_app, scan_response_effects_spawn_nothing. cbn [app].
  set (pids_to_dump := if YaraProcessScanRequest.dump_process_on_match args
                       then list_to_set (matched_pids responses) else ∅ : gset Z).
  destruct (decide (pids_to_dump = ∅)) as [He|Hne].
  - rewrite bool_decide_eq_true_2 by exact He. intros Hin. inversion Hin.
  - rewrite bool_decide_eq_false_2 by exact Hne. cbn [spawned omap].
    intros Hin. apply list_elem_of_singleton in Hin. injection Hin as -> ->.
    assert (Hp : elements pids_to_dump ≠ []).
    { intros E. apply Hne, leibniz_equiv, elements_empty_inv, E. }
    split; [reflexivity|]. split; [exact Hp|].
    unfold DumpProcessMemory.Start, YaraProcessScan.dump_args.
    cbn [YaraProcessDumpArgs.process_regex YaraProcessDumpArgs.dump_all_processes
         YaraProcessDumpArgs.pids].
    rewrite bind_run, when_run. cbn [String.eqb negb orb].
    rewrite (bool_decide_eq_false_2 _ Hp). reflexivity.
Qed.

Lemma spawned_dump_request_starts_witness :
  let args :=
    YaraProcessScanRequest.mk (YaraSignature.mk ["rule"]) "svc.*" true false false
                              true false true false true in
  let hit := YaraProcessScanMatch.mk (Process.mk 10 "svc" "/bin/svc") [] in
  let responses := Responses.mk true "" [YaraProcessScanResponse.mk [hit] [] []] in
  let dump_request := YaraProcessDumpArgs.mk [10%Z] "" false true false true false true in
  (Responses.success responses = true
   ∧ (DumpProcessMemory_flow dump_request, "CheckDumpProcessMemoryResults")
       ∈ spawned (effects (YaraProcessScan.ProcessScanResults args responses ∅)))
  ∧ DumpProcessMemory.Start (fun _ => false) dump_request tt
    = (tt, [CallClient (YaraProcessDump_action dump_request) "ProcessResults"], Returned tt).
Proof.
  intros args hit responses dump_request.
  assert (Hin : (DumpProcessMemory_flow dump_request, "CheckDumpProcessMemoryResults")
                  ∈ spawned (effects (YaraProcessScan.ProcessScanResults args responses ∅))).
  { vm_compute. left. }
  split; [split; [reflexivity|exact Hin]|].
  exact (proj2 (proj2 (spawned_dump_request_starts (fun _ => false) args responses ∅
                         dump_request "CheckDumpProcessMemoryResults" eq_refl Hin))).
Defined.

(** ** More on the deletion acknowledgements *)

(** X15: [LogDeleteFiles] has no effect of its own, and the flow gets
    through the acknowledgements without error exactly when every one of
    them reports success. *)
Theorem deletion_acks_all_or_error {A} (acks : list (Responses.t A)) (u : unit) :
  effects (deliver_deletion_acks acks u) = []
  ∧ (result (deliver_deletion_acks acks u) = Returned tt
     ↔ Forall (fun ack => Responses.success ack = true) acks).
Proof.
  unfold deliver_deletion_acks. induction acks as [|ack acks [IHe IHr]].
  - split; [reflexivity|]. split; [constructor|reflexivity].
  - cbn [for_each]. rewrite bind_run. unfold DumpProcessMemory.LogDeleteFiles at 1 3.
    destruct (Responses.success ack) eqn:Hack; cbn [negb].
    + rewrite ret_run. cbv beta iota.
      destruct (for_each acks DumpProcessMemory.LogDeleteFiles u) as [[u' es] o].
      unfold effects, result in *. cbn [fst snd] in *. subst es.
      split; [reflexivity|]. rewrite IHr. split.
      * intros H. constructor; assumption.
      * intros H. inversion H; assumption.
    + rewrite raise_run. unfold effects, result. cbn [fst snd].
      split; [reflexivity|]. split; [discriminate|].
      intros H. inversion H; congruence.
Qed.

(** ** The debug line of a match *)

(** X16: the rule names in the debug line of a match are those of the
    match, each once and in ascending order, joined by commas. *)
Theorem debug_line_rules_sorted (match_ : YaraProcessScanMatch.t) :
  ∃ rules,
    YaraProcessScan.debug_line match_
    = "YaraScan match in pid "
        +:+ fmt_d (Process.pid (YaraProcessScanMatch.process match_))
        +:+ " (" +:+ Process.exe (YaraProcessScanMatch.process match_)
        +:+ ") for rules " +:+ PyStr.join "," rules +:+ "."
    ∧ StronglySorted String.le rules
    ∧ NoDup rules
    ∧ ∀ r, r ∈ rules
           ↔ r ∈ List.map YaraMatch.rule_name (YaraProcessScanMatch.match_ match_).
Proof.
  eexists. split; [reflexivity|]. unfold sorted.
  split; [apply StronglySorted_merge_sort; apply _|].
  split.
  - rewrite merge_sort_Permutation. apply NoDup_elements.
  - intros r. rewrite merge_sort_Permutation, elem_of_elements, elem_of_list_to_set.
    reflexivity.
Qed.

(** ** When the migration returns *)

Lemma migrate_infos_result (infos : list YaraProcessDumpInformation.t) :
  (result (for_each_obj migrate_info infos) = Returned tt
   ∧ Forall (fun info => Forall well_formed_dump_file
                                (YaraProcessDumpInformation.dump_files info)) infos)
  ∨ (∃ e, result (for_each_obj migrate_info infos) = Raised e ∧ is_ValueError e = true).
Proof.
  induction infos as [|info infos IH]; [left; split; [reflexivity|constructor]|].
  simpl. rewrite migrate_info_run.
  destruct (regions_until_error (YaraProcessDumpInformation.dump_files info))
    as [rs [e|]] eqn:Hrs.
  - right. exists e. split; [reflexivity|].
    destruct (regions_interrupted _ _ _ Hrs) as (good & bad & rest & _ & _ & Hbad).
    exact (dump_file_region_Raised _ _ Hbad).
  - destruct (for_each_obj migrate_info infos) as [[infos' es] o].
    unfold result in *. cbn [snd] in *.
    destruct IH as [[-> HF]|(e & -> & He)].
    + left. split; [reflexivity|]. constructor; [|exact HF].
      exact (regions_have_well_formed _ _ (regions_complete _ _ Hrs)).
    + right. exists e. split; [reflexivity|exact He].
Qed.

(** X17: the migration returns exactly when every raw path of the
    response has a well-formed file name, and when it does not return,
    what it raises is a [ValueError], never another exception. *)
Theorem migrate_returns_iff_well_formed (response : YaraProcessDumpResponse.t) :
  (result (_MigrateLegacyDumpFilesToMemoryAreas response) = Returned tt
   ↔ Forall (fun info => Forall well_formed_dump_file
                                (YaraProcessDumpInformation.dump_files info))
            (YaraProcessDumpResponse.dumped_processes response))
  ∧ (∀ e, result (_MigrateLegacyDumpFilesToMemoryAreas response) = Raised e →
          is_ValueError e = true).
Proof.
  rewrite migrate_run. unfold result at 1 3. cbn [snd].
  destruct (migrate_infos_result (YaraProcessDumpResponse.dumped_processes response))
    as [[Hr HF]|(e & Hr & He)]; rewrite Hr.
  - split; [split; [intros _; exact HF|reflexivity]|]. intros e H. discriminate H.
  - split.
    + split; [discriminate|]. intros HF.
      destruct (migrate_infos_complete _ HF) as (infos' & Hrun & _).
      rewrite Hrun in Hr. discriminate Hr.
    + intros e' [= <-]. exact He.
Qed.
